(** * Ledgerly UK: ledger constraints, reports, VAT boxes and bank matching

    A shallow embedding of the bookkeeping core of the application:

    - the [journal_lines] table constraint of the initial schema migration,
    - the line calculators of the Invoices and Bills pages,
    - the four report generators of the Reports page,
    - the matching and reconciliation handlers of the Banking page.

    Numbers.  Every amount that is read back from the store comes from a
    [DECIMAL(12,2)] column, so it is a whole number of pence; such amounts
    are integers ([Z], in hundredths of a pound) and the literal [0.01] of
    the source is [one_penny].  The numbers typed into the invoice and bill
    forms are arbitrary, so the line calculators work over the rationals
    ([Q]), with [==] as equality.  In both cases the arithmetic is exact:
    the rounding error of the binary floating point numbers of the
    JavaScript run time is not part of the model.

    Store.  A request to the store is modelled by the rows it returns.
    Row level security and the network are not modelled. *)

From Stdlib Require Import ZArith QArith Qabs Qround List String Ascii Bool Lia.
Import ListNotations.

Local Open Scope Z_scope.

(** ** Money read from the store *)

Module Money.

(** [0.01] pounds, in pence. *)
Definition one_penny : Z := 1.

(** [Number(x)] for a nullable numeric column: [Number(null)] is [0]. *)
Definition Number (x : option Z) : Z :=
  match x with
  | Some v => v
  | None => 0
  end.

(** [x || 0] on a number: a falsy number is [0] already. *)
Definition or_zero (x : Z) : Z := if x =? 0 then 0 else x.

(** [xs.reduce((sum, x) => sum + f(x), 0)]. *)
Definition reduce_sum {A : Type} (f : A -> Z) (xs : list A) : Z :=
  fold_left (fun sum x => sum + f x) xs 0.


End Money.

(** ** SQL truth values *)

Module Sql.

(** A comparison with NULL is unknown ([None]). *)
Definition tv := option bool.

Definition and3 (a b : tv) : tv :=
  match a, b with
  | Some false, _ => Some false
  | _, Some false => Some false
  | Some true, Some true => Some true
  | _, _ => None
  end.

Definition or3 (a b : tv) : tv :=
  match a, b with
  | Some true, _ => Some true
  | _, Some true => Some true
  | Some false, Some false => Some false
  | _, _ => None
  end.

(** [x > 0] and [x = 0] on a nullable numeric column. *)
Definition gt0 (x : option Z) : tv := option_map (fun v => 0 <? v) x.
Definition eq0 (x : option Z) : tv := option_map (fun v => v =? 0) x.

(** A CHECK constraint rejects a row only when its condition is false:
    an unknown condition lets the row in. *)
Definition check_passes (t : tv) : bool :=
  match t with
  | Some false => false
  | _ => true
  end.

End Sql.

(** ** The journal_lines table (initial schema migration) *)

Module Ledger.

(** A row of [journal_lines] as it is written: both amount columns are
    nullable ([DECIMAL(12,2) DEFAULT 0], no [NOT NULL]).  The references
    [journal_id] and [account_id] are kept as text; they are assumed to
    resolve. *)
Record journal_line_row := mk_journal_line_row {
  journal_id : string;
  account_id : string;
  debit_amount : option Z;
  credit_amount : option Z
}.

(** [CONSTRAINT debit_or_credit_not_both CHECK (
      (debit_amount > 0 AND credit_amount = 0) OR
      (debit_amount = 0 AND credit_amount > 0))] *)
Definition debit_or_credit_not_both (r : journal_line_row) : Sql.tv :=
  Sql.or3
    (Sql.and3 (Sql.gt0 (debit_amount r)) (Sql.eq0 (credit_amount r)))
    (Sql.and3 (Sql.eq0 (debit_amount r)) (Sql.gt0 (credit_amount r))).

Inductive insert_result :=
| Inserted (table : list journal_line_row)
| CheckViolation (constraint : string).

(** One INSERT statement with several rows: all rows are stored, or the
    statement fails on a row that violates the constraint and stores
    nothing.  This is the only validation a journal's lines go through:
    the repository has no code that posts journals, and what the later
    migrations add to [journals] and [journal_lines] (an owner column,
    its trigger and the access policies) does not look at the amounts. *)
Definition insert_journal_lines
  (table rows : list journal_line_row) : insert_result :=
  if forallb (fun r => Sql.check_passes (debit_or_credit_not_both r)) rows
  then Inserted (table ++ rows)
  else CheckViolation "debit_or_credit_not_both".

(** The totals of a journal's lines, as the reports read them. *)
Definition total_debit (rows : list journal_line_row) : Z :=
  Money.reduce_sum (fun r => Money.Number (debit_amount r)) rows.

Definition total_credit (rows : list journal_line_row) : Z :=
  Money.reduce_sum (fun r => Money.Number (credit_amount r)) rows.

End Ledger.

(** ** Dates *)

Module Dates.

(** A [DATE] column, or the [YYYY-MM-DD] text of a date input. *)
Record date := mk_date { year : Z; month : Z; day : Z }.

(** [a <= b] on dates. *)
Definition leb (a b : date) : bool :=
  (year a <? year b)
  || ((year a =? year b)
      && ((month a <? month b)
          || ((month a =? month b) && (day a <=? day b)))).

(** The [dateRange] state of the Reports page. *)
Record dateRange := mk_dateRange { from : date; to : date }.

(** [.gte(column, dateRange.from).lte(column, dateRange.to)] *)
Definition within (r : dateRange) (d : date) : bool :=
  leb (from r) d && leb d (to r).

End Dates.

(** ** Arrays of rows looked up by account name *)

Section KeyedRows.

Variable R : Type.
Variable key : R -> string.

(** [rows.find(item => item.account_name === name)] *)
Definition find_row (name : string) (rows : list R) : option R :=
  find (fun item => String.eqb (key item) name) rows.

(** [existing.field += x], where [existing] is the object that [find]
    returned: the array holds that same object, so its first row of that
    name changes in place. *)
Fixpoint update_found (name : string) (f : R -> R) (rows : list R) : list R :=
  match rows with
  | [] => []
  | item :: rest =>
      if String.eqb (key item) name
      then f item :: rest
      else item :: update_found name f rest
  end.

End KeyedRows.

Arguments find_row {R} key name rows.
Arguments update_found {R} key name f rows.

(** ** Journal lines as the report requests return them *)

Module Journal.

(** [account:chart_of_accounts(account_name, account_type)] *)
Record account := mk_account {
  account_name : string;
  account_type : string
}.

(** A row of [journal_lines] joined to its account and to the date of its
    journal.  The amounts are nullable columns. *)
Record journal_line := mk_journal_line {
  account_of : option account;
  journal_date : Dates.date;
  debit_amount : option Z;
  credit_amount : option Z
}.

(** [s || fallback] on text: the empty text is falsy. *)
Definition text_or (s : option string) (fallback : string) : string :=
  match s with
  | Some t => if String.eqb t "" then fallback else t
  | None => fallback
  end.

(** [line.account?.account_name || 'Unknown'] *)
Definition accountName (line : journal_line) : string :=
  text_or (option_map account_name (account_of line)) "Unknown".

(** [line.account?.account_type] *)
Definition accountType (line : journal_line) : option string :=
  option_map account_type (account_of line).

(** [accountType === 'income'] and the like. *)
Definition type_is (t : option string) (s : string) : bool :=
  match t with
  | Some u => String.eqb u s
  | None => false
  end.

(** [from('journal_lines').select('*, account:chart_of_accounts(...)')]
    with no filter, as the Balance Sheet and the Trial Balance ask: every
    line of the table comes back. *)
Definition select_journal_lines
  (table : list journal_line) : option (list journal_line) :=
  Some table.

End Journal.

(** ** Profit & Loss (Reports page) *)

Module ProfitLoss.
Import Journal.

Record row := mk_row { account_name : string; total : Z }.

Record profitLoss := mk_profitLoss {
  income : list row;
  expenses : list row;
  totalIncome : Z;
  totalExpenses : Z;
  netProfit : Z
}.

(** The body of both branches: look the account up, add to the row found,
    or push a new row. *)
Definition add_amount (accountName : string) (amount : Z)
  (rows : list row) : list row :=
  match find_row account_name accountName rows with
  | Some _ =>
      update_found account_name accountName
        (fun existing =>
           mk_row (account_name existing) (total existing + amount))
        rows
  | None => rows ++ [mk_row accountName amount]
  end.

(** One turn of [journalLines.forEach]; the state is the pair of arrays
    [income] and [expenses]. *)
Definition step (st : list row * list row) (line : journal_line)
  : list row * list row :=
  let accountType := accountType line in
  let accountName := accountName line in
  if type_is accountType "income" then
    let amount :=
      Money.Number (credit_amount line) - Money.Number (debit_amount line) in
    (add_amount accountName amount (fst st), snd st)
  else if type_is accountType "expense" then
    let amount :=
      Money.Number (debit_amount line) - Money.Number (credit_amount line) in
    (fst st, add_amount accountName amount (snd st))
  else st.

(** [generateProfitLoss], from the rows [journalLines] that its request
    returned ([None] when the request returned no data). *)
Definition generateProfitLoss
  (journalLines : option (list journal_line)) : profitLoss :=
  let st :=
    match journalLines with
    | Some lines => fold_left step lines ([], [])
    | None => ([], [])
    end in
  let income := fst st in
  let expenses := snd st in
  let totalIncome := Money.reduce_sum total income in
  let totalExpenses := Money.reduce_sum total expenses in
  let netProfit := totalIncome - totalExpenses in
  mk_profitLoss income expenses totalIncome totalExpenses netProfit.

End ProfitLoss.

(** ** Balance Sheet (Reports page) *)

Module BalanceSheet.
Import Journal.

Record row := mk_row { account_name : string; balance : Z }.

Record balanceSheet := mk_balanceSheet {
  assets : list row;
  liabilities : list row;
  equity : list row;
  totalAssets : Z;
  totalLiabilities : Z;
  totalEquity : Z
}.

Inductive target := Assets | Liabilities | Equity.

(** The tail of the loop body, on the array [targetArray]. *)
Definition add_balance (accountName : string) (balance0 : Z)
  (targetArray : list row) : list row :=
  match find_row account_name accountName targetArray with
  | Some _ =>
      update_found account_name accountName
        (fun existing =>
           mk_row (account_name existing) (balance existing + balance0))
        targetArray
  | None => targetArray ++ [mk_row accountName balance0]
  end.

Record arrays := mk_arrays {
  a_assets : list row;
  a_liabilities : list row;
  a_equity : list row
}.

(** One turn of [journalLines.forEach]. *)
Definition step (st : arrays) (line : journal_line) : arrays :=
  let accountType := accountType line in
  let accountName := accountName line in
  let debit := Money.Number (debit_amount line) in
  let credit := Money.Number (credit_amount line) in
  if type_is accountType "asset" then
    mk_arrays (add_balance accountName (debit - credit) (a_assets st))
              (a_liabilities st) (a_equity st)
  else if type_is accountType "liability" then
    mk_arrays (a_assets st)
              (add_balance accountName (credit - debit) (a_liabilities st))
              (a_equity st)
  else if type_is accountType "equity" then
    mk_arrays (a_assets st) (a_liabilities st)
              (add_balance accountName (credit - debit) (a_equity st))
  else st.

(** [generateBalanceSheet].  The page state [dateRange] is in scope, and
    the card is titled "Financial position as of" [dateRange.to], but the
    request carries no filter and the body never reads [dateRange]. *)
Definition generateBalanceSheet (dateRange : Dates.dateRange)
  (journal_lines : list journal_line) : balanceSheet :=
  let st :=
    match select_journal_lines journal_lines with
    | Some lines => fold_left step lines (mk_arrays [] [] [])
    | None => mk_arrays [] [] []
    end in
  mk_balanceSheet (a_assets st) (a_liabilities st) (a_equity st)
    (Money.reduce_sum balance (a_assets st))
    (Money.reduce_sum balance (a_liabilities st))
    (Money.reduce_sum balance (a_equity st)).

End BalanceSheet.

(** ** Trial Balance (Reports page) *)

Module TrialBalance.
Import Journal.

Record row := mk_row {
  account_name : string;
  account_type : string;
  debit : Z;
  credit : Z
}.

Record trialBalance := mk_trialBalance {
  accounts : list row;
  totalDebits : Z;
  totalCredits : Z;
  balanced : bool
}.

(** One turn of [journalLines.forEach].  The object [accountBalances],
    used as a map from account name to row, is the list of its rows in
    the order the names were first seen, which is the order of
    [Object.values] for names that are not array indices.  Names that
    collide with the members every object inherits are not modelled. *)
Definition step (accountBalances : list row) (line : journal_line)
  : list row :=
  let accountName := accountName line in
  let accountType := text_or (accountType line) "unknown" in
  let accountBalances :=
    match find_row account_name accountName accountBalances with
    | Some _ => accountBalances
    | None => accountBalances ++ [mk_row accountName accountType 0 0]
    end in
  let accountBalances :=
    update_found account_name accountName
      (fun r => mk_row (account_name r) (account_type r)
                  (debit r + Money.Number (debit_amount line)) (credit r))
      accountBalances in
  update_found account_name accountName
    (fun r => mk_row (account_name r) (account_type r)
                (debit r) (credit r + Money.Number (credit_amount line)))
    accountBalances.

(** [generateTrialBalance]: the request has no filter. *)
Definition generateTrialBalance
  (journal_lines : list journal_line) : trialBalance :=
  let accountBalances :=
    match select_journal_lines journal_lines with
    | Some lines => fold_left step lines []
    | None => []
    end in
  let accounts := accountBalances in
  let totalDebits := Money.reduce_sum debit accounts in
  let totalCredits := Money.reduce_sum credit accounts in
  let balanced := Z.abs (totalDebits - totalCredits) <? Money.one_penny in
  mk_trialBalance accounts totalDebits totalCredits balanced.

End TrialBalance.

(** ** VAT Return (Reports page) *)

Module VatReturn.

(** [status] of [invoices] and of [bills]: text restricted by a CHECK
    constraint to five values each. *)
Inductive invoice_status := Draft | Sent | Paid | Overdue | Cancelled.
Inductive bill_status :=
  BillDraft | Received | BillPaid | BillOverdue | BillCancelled.

(** The columns of [invoices] and [bills] that matter here; the amounts
    are [DECIMAL(12,2) NOT NULL]. *)
Record invoice := mk_invoice {
  invoice_number : string;
  invoice_date : Dates.date;
  invoice_vat_amount : Z;
  invoice_total : Z;
  invoice_status_of : invoice_status
}.

Record bill := mk_bill {
  bill_number : string;
  bill_date : Dates.date;
  bill_vat_amount : Z;
  bill_total : Z;
  bill_status_of : bill_status
}.

(** What [select('vat_amount, total, date')] returns of a row. *)
Record selected := mk_selected {
  vat_amount : Z;
  total : Z;
  date : Dates.date
}.

(** [from('invoices').select('vat_amount, total, date')
      .gte('date', dateRange.from).lte('date', dateRange.to)] *)
Definition select_invoices (dateRange : Dates.dateRange)
  (invoices : list invoice) : option (list selected) :=
  Some (map (fun i => mk_selected (invoice_vat_amount i) (invoice_total i)
                        (invoice_date i))
          (filter (fun i => Dates.within dateRange (invoice_date i)) invoices)).

(** The same request on [bills]. *)
Definition select_bills (dateRange : Dates.dateRange)
  (bills : list bill) : option (list selected) :=
  Some (map (fun b => mk_selected (bill_vat_amount b) (bill_total b)
                        (bill_date b))
          (filter (fun b => Dates.within dateRange (bill_date b)) bills)).

(** [rows?.reduce((sum, r) => sum + f(r), 0) || 0] *)
Definition reduce_or_zero (f : selected -> Z)
  (rows : option (list selected)) : Z :=
  match rows with
  | Some l => Money.or_zero (Money.reduce_sum f l)
  | None => 0
  end.

Record vatReturn := mk_vatReturn {
  box1 : Z; box2 : Z; box3 : Z; box4 : Z; box5 : Z;
  box6 : Z; box7 : Z; box8 : Z; box9 : Z
}.

(** [generateVATReturn], on the tables [invoices] and [bills]. *)
Definition generateVATReturn (dateRange : Dates.dateRange)
  (invoices_table : list invoice) (bills_table : list bill) : vatReturn :=
  let invoices := select_invoices dateRange invoices_table in
  let bills := select_bills dateRange bills_table in
  let box1 := reduce_or_zero vat_amount invoices in
  let box2 := 0 in
  let box3 := box1 + box2 in
  let box4 := reduce_or_zero vat_amount bills in
  let box5 := box3 - box4 in
  let box6 := reduce_or_zero (fun inv => total inv - vat_amount inv) invoices in
  let box7 := reduce_or_zero (fun b => total b - vat_amount b) bills in
  let box8 := 0 in
  let box9 := 0 in
  mk_vatReturn box1 box2 box3 box4 box5 box6 box7 box8 box9.

End VatReturn.

(** ** Line calculators (Invoices and Bills pages) *)

Module Tax.

(** [interface TaxCode], the same on both pages; [rate] is a percentage. *)
Record TaxCode := mk_TaxCode { id : string; name : string; rate : Q }.

End Tax.

Module Invoices.
Import Tax.
Local Open Scope Q_scope.

(** A line of the form state [newInvoice.lines]. *)
Record line := mk_line {
  description : string;
  quantity : Q;
  unit_price : Q;
  tax_code_id : string
}.

Record lineResult := mk_lineResult { lineTotal : Q; vatAmount : Q }.

(** [calculateLineTotal] of the Invoices page. *)
Definition calculateLineTotal (taxCodes : list TaxCode) (l : line)
  : lineResult :=
  let taxCode :=
    find (fun tc => String.eqb (id tc) (tax_code_id l)) taxCodes in
  let lineTotal := quantity l * unit_price l in
  let vatAmount :=
    match taxCode with
    | Some tc => (lineTotal * rate tc) / 100
    | None => 0
    end in
  mk_lineResult lineTotal vatAmount.

Record invoiceTotal := mk_invoiceTotal {
  subtotal : Q;
  vatTotal : Q;
  total : Q
}.

(** [calculateInvoiceTotal] *)
Definition calculateInvoiceTotal (taxCodes : list TaxCode)
  (lines : list line) : invoiceTotal :=
  let sums :=
    fold_left
      (fun (acc : Q * Q) l =>
         let r := calculateLineTotal taxCodes l in
         (fst acc + lineTotal r, snd acc + vatAmount r))
      lines (0, 0) in
  mk_invoiceTotal (fst sums) (snd sums) (fst sums + snd sums).

(** A row of [linesData], as [createInvoice] sends it to [invoice_lines]. *)
Record invoice_line_data := mk_invoice_line_data {
  d_description : string;
  d_quantity : Q;
  d_unit_price : Q;
  d_tax_code_id : option string;
  line_total : Q;
  vat_amount : Q
}.

(** [newInvoice.lines.map(line => ...)] in [createInvoice]. *)
Definition linesData (taxCodes : list TaxCode) (lines : list line)
  : list invoice_line_data :=
  map (fun l =>
         let r := calculateLineTotal taxCodes l in
         mk_invoice_line_data (description l) (quantity l) (unit_price l)
           (if String.eqb (tax_code_id l) "" then None
            else Some (tax_code_id l))
           (lineTotal r) (vatAmount r))
    lines.



End Invoices.

Module Bills.
Import Tax.
Local Open Scope Q_scope.

(** [interface BillLine] *)
Record BillLine := mk_BillLine {
  description : string;
  quantity : Q;
  unit_price : Q;
  tax_code_id : option string;
  line_total : Q;
  vat_amount : Q
}.

Record lineResult := mk_lineResult { r_line_total : Q; r_vat_amount : Q }.

(** [calculateLineTotal] of the Bills page. *)
Definition calculateLineTotal (taxCodes : list TaxCode) (l : BillLine)
  : lineResult :=
  let subtotal := quantity l * unit_price l in
  let taxCode :=
    find (fun tc =>
            match tax_code_id l with
            | Some i => String.eqb (id tc) i
            | None => false
            end) taxCodes in
  let vatRate :=
    match taxCode with
    | Some tc => rate tc / 100
    | None => 0
    end in
  let vatAmount := subtotal * vatRate in
  mk_lineResult (subtotal + vatAmount) vatAmount.

End Bills.

(** ** Text helpers *)

Module Text.

(** [toLowerCase] on one character: the letters A to Z.  Text outside
    ASCII is not modelled. *)
Definition lower_ascii (c : ascii) : ascii :=
  let n := nat_of_ascii c in
  if ((65 <=? n) && (n <=? 90))%nat then ascii_of_nat (n + 32) else c.

(** [s.toLowerCase()] *)
Fixpoint toLowerCase (s : string) : string :=
  match s with
  | EmptyString => EmptyString
  | String c rest => String (lower_ascii c) (toLowerCase rest)
  end.

(** [s] starts with [sub]. *)
Fixpoint starts_with (sub s : string) : bool :=
  match sub, s with
  | EmptyString, _ => true
  | String _ _, EmptyString => false
  | String a sub', String b s' => Ascii.eqb a b && starts_with sub' s'
  end.

(** [s.includes(sub)] *)
Fixpoint includes (s sub : string) : bool :=
  starts_with sub s
  || match s with
     | EmptyString => false
     | String _ rest => includes rest sub
     end.


End Text.

(** ** Bank transactions, matching and reconciliation (Banking page) *)

Module Banking.

(** [interface BankTransaction]; [amount] is positive for money in. *)
Record BankTransaction := mk_BankTransaction {
  id : string;
  date : Dates.date;
  description : string;
  amount : Z;
  reference : option string;
  reconciled : bool;
  invoice_id : option string;
  bill_id : option string
}.

(** [interface Invoice] and [interface Bill] of the page: the open
    invoices and bills that [fetchData] loaded. *)
Record Invoice := mk_Invoice {
  inv_id : string;
  invoice_number : string;
  inv_total : Z;
  customer_name : option string
}.

Record Bill := mk_Bill {
  b_id : string;
  bill_number : string;
  b_total : Z;
  supplier_name : option string
}.

Inductive suggestion :=
| suggest_invoice (item : Invoice)
| suggest_bill (item : Bill).

(** [name && description.toLowerCase().includes(name.toLowerCase())]:
    a missing or empty name is falsy. *)
Definition named_in (name : option string) (description : string) : bool :=
  match name with
  | Some n =>
      negb (String.eqb n "")
      && Text.includes (Text.toLowerCase description) (Text.toLowerCase n)
  | None => false
  end.

(** The predicate of [invoices.filter]. *)
Definition invoice_matches (transaction : BankTransaction) (inv : Invoice)
  : bool :=
  (Z.abs (inv_total inv - amount transaction) <? Money.one_penny)
  || Text.includes (Text.toLowerCase (description transaction))
       (Text.toLowerCase (invoice_number inv))
  || named_in (customer_name inv) (description transaction).

(** The predicate of [bills.filter]. *)
Definition bill_matches (transaction : BankTransaction) (bill : Bill)
  : bool :=
  (Z.abs (b_total bill + amount transaction) <? Money.one_penny)
  || Text.includes (Text.toLowerCase (description transaction))
       (Text.toLowerCase (bill_number bill))
  || named_in (supplier_name bill) (description transaction).

(** [getMatchingSuggestions] *)
Definition getMatchingSuggestions (invoices : list Invoice)
  (bills : list Bill) (transaction : BankTransaction) : list suggestion :=
  let suggestions := [] in
  let suggestions :=
    if 0 <? amount transaction then
      let matchingInvoices := filter (invoice_matches transaction) invoices in
      suggestions ++ map suggest_invoice matchingInvoices
    else suggestions in
  let suggestions :=
    if amount transaction <? 0 then
      let matchingBills := filter (bill_matches transaction) bills in
      suggestions ++ map suggest_bill matchingBills
    else suggestions in
  suggestions.

(** The store, as far as reconciliation goes: the ids of the rows of
    [invoices] and [bills], which the two references of a bank
    transaction must point into, and the table [bank_transactions]. *)
Record store := mk_store {
  invoice_ids : list string;
  bill_ids : list string;
  bank_transactions : list BankTransaction
}.

Inductive match_type := invoice | bill.

(** The object [updates]: [reconciled] is always set, and one of the two
    references. *)
Record updates := mk_updates {
  u_reconciled : bool;
  u_invoice_id : option string;
  u_bill_id : option string
}.

Definition build_updates (type : match_type) (itemId : string) : updates :=
  match type with
  | invoice => mk_updates true (Some itemId) None
  | bill => mk_updates true None (Some itemId)
  end.

(** A row after [UPDATE ... SET]: the columns named in [updates] change,
    the others stay. *)
Definition apply_updates (u : updates) (t : BankTransaction)
  : BankTransaction :=
  mk_BankTransaction (id t) (date t) (description t) (amount t)
    (reference t) (u_reconciled u)
    (match u_invoice_id u with Some i => Some i | None => invoice_id t end)
    (match u_bill_id u with Some b => Some b | None => bill_id t end).

(** The foreign keys of the columns that [updates] sets. *)
Definition references_resolve (db : store) (u : updates) : bool :=
  match u_invoice_id u with
  | Some i => existsb (String.eqb i) (invoice_ids db)
  | None => true
  end
  && match u_bill_id u with
     | Some b => existsb (String.eqb b) (bill_ids db)
     | None => true
     end.

(** [from('bank_transactions').update(updates).eq('id', transactionId)]:
    [None] is an error of the store (a reference that does not resolve on
    a row that is updated). *)
Definition update_bank_transactions (db : store) (u : updates)
  (transactionId : string) : option store :=
  let hit := fun t => String.eqb (id t) transactionId in
  if existsb hit (bank_transactions db) && negb (references_resolve db u)
  then None
  else Some (mk_store (invoice_ids db) (bill_ids db)
               (map (fun t => if hit t then apply_updates u t else t)
                  (bank_transactions db))).

(** The two toasts of [handleReconcile]. *)
Inductive outcome := Success | Failed.

(** [handleReconcile]: the outcome shown and the store afterwards. *)
Definition handleReconcile (db : store) (transactionId : string)
  (type : match_type) (itemId : string) : outcome * store :=
  let updates := build_updates type itemId in
  match update_bank_transactions db updates transactionId with
  | Some db' => (Success, db')
  | None => (Failed, db)
  end.

(** The table of all transactions renders its Reconcile button under
    [!transaction.reconciled]; the tab of unreconciled transactions lists
    only [transactions.filter(t => !t.reconciled)]. *)
Definition reconcile_offered (transaction : BankTransaction) : bool :=
  negb (reconciled transaction).

End Banking.

(** ** What the Banking page loads and counts *)

Module BankingData.
Import Banking.

(** The columns of [invoices] and [bills] that [fetchData] reads, with
    the name of the customer or supplier joined in. *)
Record invoices_row := mk_invoices_row {
  i_id : string;
  i_invoice_number : string;
  i_total : Z;
  i_status : string;
  i_customer : option string
}.

Record bills_row := mk_bills_row {
  bl_id : string;
  bl_bill_number : string;
  bl_total : Z;
  bl_status : string;
  bl_supplier : option string
}.

(** [status TEXT NOT NULL DEFAULT 'draft' CHECK (status IN ('draft',
    'received', 'paid', 'overdue', 'cancelled'))] on [bills]; no later
    migration changes it. *)
Definition bills_status_check (r : bills_row) : bool :=
  existsb (String.eqb (bl_status r))
    ["draft"; "received"; "paid"; "overdue"; "cancelled"]%string.

(** [from('invoices').select(...).eq('status', 'sent')], then
    [invoicesWithNames]. *)
Definition fetch_invoices (table : list invoices_row) : list Invoice :=
  map (fun inv =>
         mk_Invoice (i_id inv) (i_invoice_number inv) (i_total inv)
           (i_customer inv))
    (filter (fun inv => String.eqb (i_status inv) "sent") table).

(** [from('bills').select(...).in('status', ['approved',
    'awaiting_approval'])], then [billsWithNames]. *)
Definition fetch_bills (table : list bills_row) : list Bill :=
  map (fun b =>
         mk_Bill (bl_id b) (bl_bill_number b) (bl_total b) (bl_supplier b))
    (filter (fun b =>
               existsb (String.eqb (bl_status b))
                 ["approved"; "awaiting_approval"]%string)
       table).

(** [transactions.filter(t => t.reconciled).length] *)
Definition reconciledCount (transactions : list BankTransaction) : nat :=
  List.length (filter (fun t => reconciled t) transactions).

(** [transactions.filter(t => !t.reconciled).length] *)
Definition unreconciledCount (transactions : list BankTransaction) : nat :=
  List.length (filter (fun t => negb (reconciled t)) transactions).

(** [transactions.reduce((sum, t) => sum + t.amount, 0)] *)
Definition totalBalance (transactions : list BankTransaction) : Z :=
  Money.reduce_sum amount transactions.

End BankingData.

(** ** Arrays with indices *)

Module Arrays.

Fixpoint mapi_from {A B : Type} (i : nat) (f : A -> nat -> B) (xs : list A)
  : list B :=
  match xs with
  | [] => []
  | x :: rest => f x i :: mapi_from (S i) f rest
  end.

(** [xs.map((x, i) => f(x, i))] *)
Definition mapi {A B : Type} (f : A -> nat -> B) (xs : list A) : list B :=
  mapi_from 0 f xs.

Fixpoint filteri_from {A : Type} (i : nat) (p : A -> nat -> bool)
  (xs : list A) : list A :=
  match xs with
  | [] => []
  | x :: rest =>
      if p x i then x :: filteri_from (S i) p rest
      else filteri_from (S i) p rest
  end.

(** [xs.filter((x, i) => p(x, i))] *)
Definition filteri {A : Type} (p : A -> nat -> bool) (xs : list A) : list A :=
  filteri_from 0 p xs.

End Arrays.

(** ** The lines of the New Invoice form (Invoices page) *)

Module InvoiceForm.
Import Invoices.

(** The field and value that the inputs of a line pass to [updateLine]. *)
Inductive field_value :=
| set_description (value : string)
| set_tax_code_id (value : string)
| set_quantity (value : Q)
| set_unit_price (value : Q).

(** [{ ...line, [field]: value }] *)
Definition with_field (l : line) (fv : field_value) : line :=
  match fv with
  | set_description v => mk_line v (quantity l) (unit_price l) (tax_code_id l)
  | set_tax_code_id v => mk_line (description l) (quantity l) (unit_price l) v
  | set_quantity v => mk_line (description l) v (unit_price l) (tax_code_id l)
  | set_unit_price v => mk_line (description l) (quantity l) v (tax_code_id l)
  end.

(** The line of the initial state, of [addLine] and of the reset. *)
Definition blank_line : line := mk_line "" 1 0 "".

(** [addLine] *)
Definition addLine (lines : list line) : list line :=
  lines ++ [blank_line].

(** [updateLine] *)
Definition updateLine (index : nat) (fv : field_value) (lines : list line)
  : list line :=
  Arrays.mapi (fun l i => if Nat.eqb i index then with_field l fv else l)
    lines.

(** [removeLine] *)
Definition removeLine (index : nat) (lines : list line) : list line :=
  if Nat.ltb 1 (List.length lines)
  then Arrays.filteri (fun _ i => negb (Nat.eqb i index)) lines
  else lines.

Inductive action :=
| AddLine
| UpdateLine (index : nat) (fv : field_value)
| RemoveLine (index : nat).

Definition act (lines : list line) (a : action) : list line :=
  match a with
  | AddLine => addLine lines
  | UpdateLine index fv => updateLine index fv lines
  | RemoveLine index => removeLine index lines
  end.

(** The lines after a series of actions of the user on the form. *)
Definition after (actions : list action) (lines : list line) : list line :=
  fold_left act actions lines.

End InvoiceForm.

(** ** The lines of the New Bill form (Bills page) *)

Module BillForm.
Import Tax.
Import Bills.
Local Open Scope Q_scope.

(** The field and value that the inputs of a line pass to
    [updateBillLine]; the tax code select passes [value || undefined]. *)
Inductive field_value :=
| set_description (value : string)
| set_quantity (value : Q)
| set_unit_price (value : Q)
| set_tax_code_id (value : option string).

(** [{ ...updatedLines[index], [field]: value }] *)
Definition with_field (l : BillLine) (fv : field_value) : BillLine :=
  match fv with
  | set_description v =>
      mk_BillLine v (quantity l) (unit_price l) (tax_code_id l)
        (line_total l) (vat_amount l)
  | set_quantity v =>
      mk_BillLine (description l) v (unit_price l) (tax_code_id l)
        (line_total l) (vat_amount l)
  | set_unit_price v =>
      mk_BillLine (description l) (quantity l) v (tax_code_id l)
        (line_total l) (vat_amount l)
  | set_tax_code_id v =>
      mk_BillLine (description l) (quantity l) (unit_price l) v
        (line_total l) (vat_amount l)
  end.

(** [field === 'quantity' || field === 'unit_price' ||
     field === 'tax_code_id'] *)
Definition recalculates (fv : field_value) : bool :=
  match fv with
  | set_description _ => false
  | _ => true
  end.

(** [updateBillLine], for the index of a line of the form.  For any other
    index the source would extend the array with an object that has the
    one field only; that is outside the model ([None]). *)
Definition updateBillLine (taxCodes : list TaxCode) (index : nat)
  (fv : field_value) (billLines : list BillLine) : option (list BillLine) :=
  match nth_error billLines index with
  | None => None
  | Some old =>
      let updated := with_field old fv in
      let updated :=
        if recalculates fv then
          let totals := calculateLineTotal taxCodes updated in
          mk_BillLine (description updated) (quantity updated)
            (unit_price updated) (tax_code_id updated)
            (r_line_total totals) (r_vat_amount totals)
        else updated in
      Some (firstn index billLines ++ updated :: skipn (S index) billLines)
  end.

(** The line of the initial state, of [addBillLine] and of [resetForm]. *)
Definition blank_line : BillLine := mk_BillLine "" 1 0 None 0 0.

(** [addBillLine] *)
Definition addBillLine (billLines : list BillLine) : list BillLine :=
  billLines ++ [blank_line].

(** [removeBillLine] *)
Definition removeBillLine (index : nat) (billLines : list BillLine)
  : list BillLine :=
  if Nat.ltb 1 (List.length billLines)
  then Arrays.filteri (fun _ i => negb (Nat.eqb i index)) billLines
  else billLines.

Record totals := mk_totals { subtotal : Q; vatAmount : Q; total : Q }.

(** [calculateTotals] *)
Definition calculateTotals (billLines : list BillLine) : totals :=
  let subtotal :=
    fold_left (fun sum l => sum + quantity l * unit_price l) billLines 0 in
  let vatAmount :=
    fold_left (fun sum l => sum + vat_amount l) billLines 0 in
  let total := subtotal + vatAmount in
  mk_totals subtotal vatAmount total.

(** What [handleSubmit] does with the form: it refuses it with the toast
    "Please select a supplier and add at least one line item.", or sends
    the header totals and the lines to the store. *)
Inductive submission :=
| Refused
| Sent (header : totals) (lines : list BillLine).

(** [handleSubmit], up to the requests it sends. *)
Definition handleSubmit (supplier_id : string) (billLines : list BillLine)
  : submission :=
  if String.eqb supplier_id "" || Nat.eqb (List.length billLines) 0
  then Refused
  else Sent (calculateTotals billLines) billLines.

End BillForm.

(** ** The return computed for submission (VAT MTD page) *)

Module VatMtd.
Import Journal.

(** [interface Obligation], as far as the computation reads it. *)
Record Obligation := mk_Obligation {
  period_key : string;
  start_date : Dates.date;
  end_date : Dates.date
}.

(** [interface VATReturn], in pence. *)
Record VATReturn := mk_VATReturn {
  vatDueSales : Z;
  vatDueAcquisitions : Z;
  totalVatDue : Z;
  vatReclaimedCurrPeriod : Z;
  netVatDue : Z;
  totalValueSalesExVAT : Z;
  totalValuePurchasesExVAT : Z;
  totalValueGoodsSuppliedExVAT : Z;
  totalAcquisitionsExVAT : Z
}.

(** [Math.round(x)]: the nearest integer, halves upwards. *)
Definition Math_round (x : Q) : Z := Qfloor (x + (1 # 2))%Q.

(** [Math.round(x * 100) / 100] for an amount [x] of [pence] pence; the
    result again in pence. *)
Definition round_pence (pence : Z) : Z :=
  Math_round ((inject_Z pence / 100) * 100)%Q.

(** The request: the journal lines joined with [journals!inner] and
    [chart_of_accounts!inner], the date of the journal within the period
    of the obligation.  An inner join drops the lines without account. *)
Definition select_journal_lines (obligation : Obligation)
  (table : list journal_line) : list journal_line :=
  filter (fun l =>
            Dates.leb (start_date obligation) (journal_date l)
            && Dates.leb (journal_date l) (end_date obligation)
            && match account_of l with Some _ => true | None => false end)
    table.

(** [line.chart_of_accounts?.account_name?.toLowerCase() || ""] *)
Definition lowerName (line : journal_line) : string :=
  match account_of line with
  | Some a => Text.toLowerCase (account_name a)
  | None => ""
  end.

(** The four running sums of the loop. *)
Record sums := mk_sums {
  s_vatDueSales : Z;
  s_vatReclaimed : Z;
  s_salesExVat : Z;
  s_purchasesExVat : Z
}.

(** One turn of [journalData.forEach]: four independent tests. *)
Definition step (s : sums) (line : journal_line) : sums :=
  let accountName := lowerName line in
  let credit := Money.Number (credit_amount line) in
  let debit := Money.Number (debit_amount line) in
  mk_sums
    (if Text.includes accountName "vat" && Text.includes accountName "sales"
     then s_vatDueSales s + credit else s_vatDueSales s)
    (if Text.includes accountName "vat" && Text.includes accountName "purchase"
     then s_vatReclaimed s + debit else s_vatReclaimed s)
    (if type_is (accountType line) "Revenue"
     then s_salesExVat s + credit else s_salesExVat s)
    (if type_is (accountType line) "Expense"
     then s_purchasesExVat s + debit else s_purchasesExVat s).

(** [calculateVATReturn]: the return that the page shows and submits
    once the request has succeeded, from the table of journal lines. *)
Definition calculateVATReturn (obligation : Obligation)
  (table : list journal_line) : VATReturn :=
  let journalData := select_journal_lines obligation table in
  let s := fold_left step journalData (mk_sums 0 0 0 0) in
  let totalVatDue := s_vatDueSales s in
  let netVatDue := totalVatDue - s_vatReclaimed s in
  mk_VATReturn
    (round_pence (s_vatDueSales s))
    0
    (round_pence totalVatDue)
    (round_pence (s_vatReclaimed s))
    (round_pence netVatDue)
    (round_pence (s_salesExVat s))
    (round_pence (s_purchasesExVat s))
    0
    0.

(** [account_type TEXT NOT NULL CHECK (account_type IN ('asset',
    'liability', 'equity', 'income', 'expense'))] on the chart of
    accounts. *)
Definition account_type_check (a : account) : bool :=
  existsb (String.eqb (account_type a))
    ["asset"; "liability"; "equity"; "income"; "expense"]%string.

End VatMtd.

(** ** The chart of accounts that the initial migration inserts *)

Module ChartOfAccounts.
Import Journal.

(** [INSERT INTO public.chart_of_accounts (account_name, account_type,
    account_code) VALUES ...], without the codes. *)
Definition seeded : list account :=
  [mk_account "Current Account" "asset";
   mk_account "Accounts Receivable" "asset";
   mk_account "VAT Receivable" "asset";
   mk_account "Office Equipment" "asset";
   mk_account "Accounts Payable" "liability";
   mk_account "VAT Payable" "liability";
   mk_account "Corporation Tax" "liability";
   mk_account "Share Capital" "equity";
   mk_account "Retained Earnings" "equity";
   mk_account "Sales Revenue" "income";
   mk_account "Other Income" "income";
   mk_account "Office Expenses" "expense";
   mk_account "Professional Fees" "expense";
   mk_account "Travel Expenses" "expense";
   mk_account "Bank Charges" "expense"].

End ChartOfAccounts.

(** ** Reading a bank statement (Banking page) *)

Module Csv.

(** The characters that [trim] removes, among ASCII: tab, line feed,
    vertical tab, form feed, carriage return and space. *)
Definition is_space (c : ascii) : bool :=
  let n := nat_of_ascii c in
  ((9 <=? n) && (n <=? 13) || (n =? 32))%nat.

Definition newline : ascii := ascii_of_nat 10.
Definition comma : ascii := ascii_of_nat 44.
Definition quote : ascii := ascii_of_nat 34.

Fixpoint trim_start (s : string) : string :=
  match s with
  | EmptyString => EmptyString
  | String c rest => if is_space c then trim_start rest else s
  end.

Fixpoint trim_end (s : string) : string :=
  match s with
  | EmptyString => EmptyString
  | String c rest =>
      match trim_end rest with
      | EmptyString => if is_space c then EmptyString else String c EmptyString
      | kept => String c kept
      end
  end.

(** [s.trim()] *)
Definition trim (s : string) : string := trim_end (trim_start s).

(** [s.split(sep)] for a separator of one character: always at least one
    piece. *)
Fixpoint split (sep : ascii) (s : string) : list string :=
  match s with
  | EmptyString => [EmptyString]
  | String c rest =>
      if Ascii.eqb c sep then EmptyString :: split sep rest
      else
        match split sep rest with
        | piece :: pieces => String c piece :: pieces
        | [] => [String c EmptyString]
        end
  end.

(** [s.replace] of every occurrence of one character by nothing. *)
Fixpoint remove_char (c : ascii) (s : string) : string :=
  match s with
  | EmptyString => EmptyString
  | String d rest =>
      if Ascii.eqb d c then remove_char c rest
      else String d (remove_char c rest)
  end.

(** [v.trim()] followed by the removal of every double quote, applied to
    every header and value. *)
Definition clean (v : string) : string := remove_char quote (trim v).

(** An element of the array [transactions]. *)
Record transaction := mk_transaction {
  date : string;
  description : string;
  amount : Q;
  reference : option string
}.

Section ParseCSV.

(** [parseFloat]: [None] is [NaN]. *)
Variable parseFloat : string -> option Q.

(** [new Date(date)] followed by [toISOString().split('T')[0]]: [None]
    when the date is invalid. *)
Variable iso_date : string -> option string.

(** The body of the loop for one line after the header: [None] when the
    line is skipped. *)
Definition parse_line (headers : list string) (line : string)
  : option transaction :=
  let values := map clean (split comma line) in
  if (3 <=? List.length values)%nat then
    if (3 <=? List.length headers)%nat then
      let date := nth 0 values EmptyString in
      let description := nth 1 values EmptyString in
      let amount := parseFloat (nth 2 values EmptyString) in
      if String.eqb date "" || String.eqb description "" then None
      else
        match amount with
        | None => None
        | Some amount =>
            match iso_date date with
            | None => None
            | Some parsedDate =>
                Some (mk_transaction parsedDate description amount
                        match nth_error values 3 with
                        | Some r => if String.eqb r "" then None else Some r
                        | None => None
                        end)
            end
        end
    else None
  else None.

Fixpoint keep_parsed (headers : list string) (lines : list string)
  : list transaction :=
  match lines with
  | [] => []
  | line :: rest =>
      match parse_line headers line with
      | Some t => t :: keep_parsed headers rest
      | None => keep_parsed headers rest
      end
  end.

(** [parseCSV] *)
Definition parseCSV (csvText : string) : list transaction :=
  let lines := split newline (trim csvText) in
  if (List.length lines <? 2)%nat then []
  else
    let headers := map clean (split comma (hd EmptyString lines)) in
    keep_parsed headers (tl lines).

End ParseCSV.

End Csv.

(** ** The figures of the Dashboard page *)

Module Dashboard.

(** The columns of [invoices] that the page reads. *)
Record invoice_row := mk_invoice_row {
  invoice_number : string;
  status : string;
  total : Z;
  vat_amount : Z
}.

(** [interface DashboardStats]; bills are kept by their number. *)
Record DashboardStats := mk_DashboardStats {
  totalCash : Z;
  unpaidInvoices : nat;
  unpaidInvoicesAmount : Z;
  overdueInvoices : nat;
  vatOwed : Z;
  recentInvoices : list invoice_row;
  recentBills : list string
}.

(** [from('invoices').select(...).in('status', ['sent', 'overdue'])
      .order('created_at', { ascending: false })]; the table is given
    newest first. *)
Definition select_unpaid (invoices : list invoice_row)
  : option (list invoice_row) :=
  Some (filter (fun inv =>
                  existsb (String.eqb (status inv))
                    ["sent"; "overdue"]%string)
          invoices).

(** [from('bills').select(...).order('created_at', { ascending: false })
      .limit(5)]; the table is given newest first. *)
Definition select_recent_bills (bills : list string) : option (list string) :=
  Some (firstn 5 bills).

(** [from('bank_transactions').select('amount')] *)
Definition select_amounts (transactions : list Banking.BankTransaction)
  : option (list Z) :=
  Some (map Banking.amount transactions).

(** [xs?.length || 0] *)
Definition length_or_zero {A : Type} (xs : option (list A)) : nat :=
  match xs with
  | Some l => List.length l
  | None => 0
  end.

(** [xs?.reduce((sum, x) => sum + Number(f(x)), 0) || 0] *)
Definition sum_or_zero {A : Type} (f : A -> Z) (xs : option (list A)) : Z :=
  match xs with
  | Some l => Money.or_zero (Money.reduce_sum f l)
  | None => 0
  end.

(** [fetchDashboardData]: the stats it sets. *)
Definition fetchDashboardData (invoices_table : list invoice_row)
  (bills_table : list string)
  (bank_transactions : list Banking.BankTransaction) : DashboardStats :=
  let invoices := select_unpaid invoices_table in
  let bills := select_recent_bills bills_table in
  let bankTransactions := select_amounts bank_transactions in
  let totalCash := sum_or_zero (fun amount => amount) bankTransactions in
  let unpaidInvoices := length_or_zero invoices in
  let unpaidInvoicesAmount := sum_or_zero total invoices in
  let overdueInvoices :=
    length_or_zero
      (option_map (filter (fun inv => String.eqb (status inv) "overdue"))
         invoices) in
  let vatOwed := sum_or_zero vat_amount invoices in
  mk_DashboardStats totalCash unpaidInvoices unpaidInvoicesAmount
    overdueInvoices vatOwed
    (match invoices with Some l => firstn 5 l | None => [] end)
    (match bills with Some l => l | None => [] end).

End Dashboard.

(** * Properties *)

(** ** Sums and keyed rows *)

Lemma fold_left_sum_acc {A : Type} (f : A -> Z) (xs : list A) (a : Z) :
  fold_left (fun sum x => sum + f x) xs a
  = a + fold_left (fun sum x => sum + f x) xs 0.
Proof.
  revert a. induction xs as [|x xs IH]; intros a; simpl.
  - lia.
  - rewrite IH, (IH (f x)). lia.
Qed.

Lemma reduce_sum_nil {A : Type} (f : A -> Z) : Money.reduce_sum f [] = 0.
Proof. reflexivity. Qed.

Lemma reduce_sum_cons {A : Type} (f : A -> Z) (x : A) (xs : list A) :
  Money.reduce_sum f (x :: xs) = f x + Money.reduce_sum f xs.
Proof.
  unfold Money.reduce_sum. simpl. rewrite fold_left_sum_acc. lia.
Qed.

Lemma reduce_sum_app {A : Type} (f : A -> Z) (xs ys : list A) :
  Money.reduce_sum f (xs ++ ys)
  = Money.reduce_sum f xs + Money.reduce_sum f ys.
Proof.
  induction xs as [|x xs IH].
  - rewrite reduce_sum_nil. simpl. lia.
  - simpl. rewrite !reduce_sum_cons, IH. lia.
Qed.

Lemma reduce_sum_map {A B : Type} (g : A -> B) (f : B -> Z) (xs : list A) :
  Money.reduce_sum f (map g xs) = Money.reduce_sum (fun x => f (g x)) xs.
Proof.
  induction xs as [|x xs IH]; simpl; [reflexivity|].
  rewrite !reduce_sum_cons, IH. reflexivity.
Qed.

Lemma or_zero_id (x : Z) : Money.or_zero x = x.
Proof.
  unfold Money.or_zero. destruct (Z.eqb_spec x 0); congruence.
Qed.

Section KeyedRowsFacts.

Variable R : Type.
Variable key : R -> string.

Lemma find_row_key (name : string) (rows : list R) (r : R) :
  find_row key name rows = Some r -> In r rows /\ key r = name.
Proof.
  unfold find_row. intros H. apply find_some in H.
  destruct H as [Hin Heq]. apply String.eqb_eq in Heq. auto.
Qed.

Lemma find_row_none (name : string) (rows : list R) :
  find_row key name rows = None <-> ~ In name (map key rows).
Proof.
  unfold find_row. induction rows as [|item rest IH]; simpl.
  - split; auto.
  - destruct (String.eqb_spec (key item) name) as [E|E].
    + split; [discriminate|]. intros H. elim H. auto.
    + rewrite IH. split; intros H.
      * intros [H1|H1]; auto.
      * intros H1. apply H. auto.
Qed.


Lemma map_key_update_found (name : string) (f : R -> R) (rows : list R) :
  (forall r, key (f r) = key r) ->
  map key (update_found key name f rows) = map key rows.
Proof.
  intros Hf. induction rows as [|item rest IH]; simpl; [reflexivity|].
  destruct (String.eqb (key item) name); simpl.
  - rewrite Hf. reflexivity.
  - rewrite IH. reflexivity.
Qed.

(** The rows after an update: the row that was found, changed, and the
    others, untouched; when names are not repeated the others have
    another name. *)
Lemma in_update_found (name : string) (f : R -> R) (rows : list R) (r' : R) :
  NoDup (map key rows) ->
  In r' (update_found key name f rows) ->
  (exists r, In r rows /\ key r = name /\ r' = f r)
  \/ (In r' rows /\ key r' <> name).
Proof.
  induction rows as [|item rest IH]; simpl; intros Hnd Hin; [contradiction|].
  inversion Hnd as [|k ks Hnotin Hnd']; subst.
  destruct (String.eqb_spec (key item) name) as [E|E].
  - destruct Hin as [Hin|Hin].
    + left. exists item. auto.
    + right. split; [auto|]. intros Hk. apply Hnotin.
      rewrite E, <- Hk. apply in_map, Hin.
  - destruct Hin as [Hin|Hin].
    + right. subst r'. auto.
    + destruct (IH Hnd' Hin) as [(r & Hr & Hk & Hf)|[Hr Hk]].
      * left. exists r. auto.
      * right. auto.
Qed.

Variable val : R -> Z.

(** A sum over the rows moves by what the update adds to the row found. *)
Lemma reduce_sum_update_found
  (name : string) (f : R -> R) (delta : Z) (rows : list R) :
  (forall r, val (f r) = val r + delta) ->
  Money.reduce_sum val (update_found key name f rows)
  = Money.reduce_sum val rows
    + match find_row key name rows with Some _ => delta | None => 0 end.
Proof.
  intros Hf. unfold find_row.
  induction rows as [|item rest IH]; simpl; [reflexivity|].
  destruct (String.eqb (key item) name).
  - rewrite !reduce_sum_cons, Hf. lia.
  - rewrite !reduce_sum_cons, IH. lia.
Qed.

End KeyedRowsFacts.

(** ** Journal lines *)

Module LedgerFacts.
Import Ledger.







(** The example journal of the specification: 100.00 debited to an expense
    account and credited to the bank. *)
Example expense_paid_from_bank_is_inserted :
  let lines :=
    [mk_journal_line_row "j1" "office-expenses" (Some 10000) (Some 0);
     mk_journal_line_row "j1" "current-account" (Some 0) (Some 10000)] in
  insert_journal_lines [] lines = Inserted lines /\
  total_debit lines = total_credit lines.
Proof. split; reflexivity. Qed.

(** NULL amounts: a line with no debit and a credit of 5.00 passes, since
    the condition of the constraint is unknown rather than false. *)
Example null_debit_passes :
  debit_or_credit_not_both (mk_journal_line_row "j1" "a1" None (Some 500))
  = None.
Proof. reflexivity. Qed.

End LedgerFacts.

(** ** Trial Balance *)

Module TrialBalanceFacts.
Import Journal.
Import TrialBalance.








(** The example journal of the specification in the Trial Balance: one
    row per account, totals of 100.00 on each side, balanced. *)
Example expense_paid_from_bank_balances :
  generateTrialBalance
    [mk_journal_line (Some (mk_account "Office Expenses" "expense"))
       (Dates.mk_date 2025 3 31) (Some 10000) (Some 0);
     mk_journal_line (Some (mk_account "Current Account" "asset"))
       (Dates.mk_date 2025 3 31) (Some 0) (Some 10000)]
  = mk_trialBalance
      [mk_row "Office Expenses" "expense" 10000 0;
       mk_row "Current Account" "asset" 0 10000]
      10000 10000 true.
Proof. reflexivity. Qed.

End TrialBalanceFacts.

(** ** Profit & Loss *)

Module ProfitLossFacts.
Import Journal.
Import ProfitLoss.

Lemma NoDup_snoc {A : Type} (xs : list A) (a : A) :
  NoDup xs -> ~ In a xs -> NoDup (xs ++ [a]).
Proof.
  induction xs as [|x xs IH]; simpl; intros Hnd Hnot.
  - constructor; [intros []|constructor].
  - inversion Hnd as [|y ys Hx Hxs]; subst. constructor.
    + rewrite in_app_iff. simpl. intros [H|[H|[]]]; [auto|].
      apply Hnot. auto.
    + apply IH; auto.
Qed.

(** Grouping by account name, for either array: [sel] picks the lines of
    the array and [amt] is what a line adds to it. *)
Section Grouping.

Variable sel : journal_line -> bool.
Variable amt : journal_line -> Z.

Definition gstep (rows : list row) (line : journal_line) : list row :=
  if sel line then add_amount (accountName line) (amt line) rows else rows.

(** The net amount of one account over the lines of the array. *)
Definition group_sum (name : string) (lines : list journal_line) : Z :=
  Money.reduce_sum amt
    (filter (fun l => sel l && String.eqb (accountName l) name) lines).

(** What the array holds once the lines [lines] have been processed. *)
Definition grouped (rows : list row) (lines : list journal_line) : Prop :=
  NoDup (map account_name rows)
  /\ (forall name,
        In name (map account_name rows)
        <-> exists l, In l lines /\ sel l = true /\ accountName l = name)
  /\ (forall r, In r rows -> total r = group_sum (account_name r) lines).

Lemma group_sum_snoc (name : string) (lines : list journal_line)
  (l : journal_line) :
  group_sum name (lines ++ [l])
  = group_sum name lines
    + (if sel l && String.eqb (accountName l) name then amt l else 0).
Proof.
  unfold group_sum. rewrite filter_app, reduce_sum_app. simpl.
  destruct (sel l && String.eqb (accountName l) name).
  - rewrite reduce_sum_cons, reduce_sum_nil. lia.
  - rewrite reduce_sum_nil. lia.
Qed.

Lemma group_sum_absent (name : string) (lines : list journal_line) :
  (forall l, In l lines -> sel l = true -> accountName l <> name) ->
  group_sum name lines = 0.
Proof.
  unfold group_sum. induction lines as [|l ls IH]; intros H; simpl.
  - reflexivity.
  - destruct (sel l) eqn:Es; simpl.
    + destruct (String.eqb_spec (accountName l) name) as [E|E].
      * elim (H l (or_introl eq_refl) Es E).
      * apply IH. intros l' Hl'. apply H. right. exact Hl'.
    + apply IH. intros l' Hl'. apply H. right. exact Hl'.
Qed.

Lemma grouped_nil : grouped [] [].
Proof.
  split; [constructor|split].
  - intros name. simpl. split; [contradiction|].
    intros (l & Hl & _). exact Hl.
  - intros r [].
Qed.

Lemma grouped_step (rows : list row) (lines : list journal_line)
  (l : journal_line) :
  grouped rows lines -> grouped (gstep rows l) (lines ++ [l]).
Proof.
  intros (Hnd & Hnames & Htot). unfold gstep.
  destruct (sel l) eqn:Es.
  - unfold add_amount.
    destruct (find_row account_name (accountName l) rows) as [r0|] eqn:Ef.
    + (* the account has a row: it is updated in place *)
      set (f := fun existing : row => mk_row _ (total existing + amt l)).
      assert (Hkeys : map account_name
                        (update_found account_name (accountName l) f rows)
                      = map account_name rows).
      { apply map_key_update_found. reflexivity. }
      apply find_row_key in Ef. destruct Ef as [Hin0 Hk0].
      split; [rewrite Hkeys; exact Hnd|split].
      * intros name. rewrite Hkeys, Hnames. split.
        -- intros (l' & Hl' & Hs & Hn). exists l'.
           split; [apply in_or_app; left; exact Hl'|auto].
        -- intros (l' & Hl' & Hs & Hn). apply in_app_or in Hl'.
           destruct Hl' as [Hl'|[Hl'|[]]].
           ++ exists l'. auto.
           ++ subst l'. apply Hnames. rewrite <- Hn, <- Hk0.
              apply in_map, Hin0.
      * intros r' Hr'. rewrite group_sum_snoc, Es. simpl.
        apply in_update_found in Hr'; [|exact Hnd].
        destruct Hr' as [(r & Hr & Hk & Hf)|[Hr Hk]].
        -- subst r'. simpl. rewrite Hk, String.eqb_refl, (Htot r Hr), Hk.
           reflexivity.
        -- destruct (String.eqb_spec (accountName l) (account_name r'));
             [congruence|]. rewrite (Htot r' Hr). lia.
    + (* the account has no row yet: one is pushed *)
      apply find_row_none in Ef.
      split; [|split].
      * rewrite map_app. simpl. apply NoDup_snoc; assumption.
      * intros name. rewrite map_app, in_app_iff. simpl. split.
        -- intros [H|[H|[]]].
           ++ apply Hnames in H. destruct H as (l' & Hl' & Hs & Hn).
              exists l'. split; [apply in_or_app; left; exact Hl'|auto].
           ++ exists l. split; [apply in_or_app; right; simpl; auto|auto].
        -- intros (l' & Hl' & Hs & Hn). apply in_app_or in Hl'.
           destruct Hl' as [Hl'|[Hl'|[]]].
           ++ left. apply Hnames. exists l'. auto.
           ++ subst l'. right. left. exact Hn.
      * intros r' Hr'. rewrite group_sum_snoc, Es. simpl.
        apply in_app_or in Hr'. destruct Hr' as [Hr'|[Hr'|[]]].
        -- destruct (String.eqb_spec (accountName l) (account_name r'))
             as [E|E].
           ++ elim Ef. rewrite E. apply in_map, Hr'.
           ++ rewrite (Htot r' Hr'). lia.
        -- subst r'. simpl. rewrite String.eqb_refl.
           rewrite group_sum_absent; [lia|].
           intros l' Hl' Hs Hn. apply Ef, Hnames. exists l'. auto.
  - (* a line of another type leaves the array alone *)
    split; [exact Hnd|split].
    + intros name. rewrite Hnames. split.
      * intros (l' & Hl' & Hs & Hn). exists l'.
        split; [apply in_or_app; left; exact Hl'|auto].
      * intros (l' & Hl' & Hs & Hn). apply in_app_or in Hl'.
        destruct Hl' as [Hl'|[Hl'|[]]]; [exists l'; auto|].
        subst l'. congruence.
    + intros r Hr. rewrite group_sum_snoc, Es. simpl.
      rewrite (Htot r Hr). lia.
Qed.

Lemma grouped_fold (lines : list journal_line) :
  grouped (fold_left gstep lines []) lines.
Proof.
  induction lines as [|l ls IH] using rev_ind.
  - apply grouped_nil.
  - rewrite fold_left_app. simpl. apply grouped_step, IH.
Qed.

End Grouping.

Definition is_income (l : journal_line) : bool :=
  type_is (accountType l) "income".

Definition is_expense (l : journal_line) : bool :=
  type_is (accountType l) "expense".

Definition credit_less_debit (l : journal_line) : Z :=
  Money.Number (credit_amount l) - Money.Number (debit_amount l).

Definition debit_less_credit (l : journal_line) : Z :=
  Money.Number (debit_amount l) - Money.Number (credit_amount l).

(** [credit - debit] of an income account, and [debit - credit] of an
    expense account, over the lines. *)
Definition net_income (name : string) (lines : list journal_line) : Z :=
  group_sum is_income credit_less_debit name lines.

Definition net_expense (name : string) (lines : list journal_line) : Z :=
  group_sum is_expense debit_less_credit name lines.

Lemma income_is_not_expense (l : journal_line) :
  is_income l = true -> is_expense l = false.
Proof.
  unfold is_income, is_expense, type_is.
  destruct (accountType l) as [t|]; [|discriminate].
  intros H. apply String.eqb_eq in H. subst t. reflexivity.
Qed.

(** The loop runs the two arrays side by side. *)
Lemma fold_step_arrays (lines : list journal_line) (inc exp : list row) :
  fold_left step lines (inc, exp)
  = (fold_left (gstep is_income credit_less_debit) lines inc,
     fold_left (gstep is_expense debit_less_credit) lines exp).
Proof.
  revert inc exp. induction lines as [|l ls IH]; intros inc exp; simpl.
  - reflexivity.
  - unfold step at 2, gstep at 2 4. simpl.
    fold (is_income l). fold (is_expense l).
    destruct (is_income l) eqn:Ei.
    + rewrite (income_is_not_expense l Ei). apply IH.
    + destruct (is_expense l); apply IH.
Qed.

(** C9 (amended): the Profit & Loss report has exactly one row for every
    income account, and one for every expense account, that has at least
    one line among the lines read; the row carries the account's net
    amount ([credit - debit] for income, [debit - credit] for expenses),
    whatever that amount is.  No row is left out for being zero. *)
Theorem profit_loss_has_a_row_per_account (lines : list journal_line) :
  let pl := generateProfitLoss (Some lines) in
  (NoDup (map account_name (income pl))
   /\ (forall name,
         In name (map account_name (income pl))
         <-> exists l, In l lines /\ is_income l = true
                       /\ accountName l = name)
   /\ (forall r, In r (income pl) ->
                 total r = net_income (account_name r) lines))
  /\
  (NoDup (map account_name (expenses pl))
   /\ (forall name,
         In name (map account_name (expenses pl))
         <-> exists l, In l lines /\ is_expense l = true
                       /\ accountName l = name)
   /\ (forall r, In r (expenses pl) ->
                 total r = net_expense (account_name r) lines)).
Proof.
  cbv zeta. unfold generateProfitLoss. simpl.
  rewrite fold_step_arrays. simpl. split.
  - apply (grouped_fold is_income credit_less_debit lines).
  - apply (grouped_fold is_expense debit_less_credit lines).
Qed.

(** C9 (as stated) fails: a sale of 100.00 credited to Sales Revenue and
    reversed by a debit of 100.00 in the same period leaves that account
    with a net amount of zero, and its row is in the report. *)
Lemma zero_net_account_has_a_row :
  let sales := Some (mk_account "Sales Revenue" "income") in
  let lines :=
    [mk_journal_line sales (Dates.mk_date 2025 3 1) (Some 0) (Some 10000);
     mk_journal_line sales (Dates.mk_date 2025 3 9) (Some 10000) (Some 0)] in
  net_income "Sales Revenue" lines = 0 /\
  income (generateProfitLoss (Some lines)) = [mk_row "Sales Revenue" 0].
Proof.
  cbv zeta. split; reflexivity.
Qed.

End ProfitLossFacts.

(** ** Balance Sheet *)

Module BalanceSheetFacts.
Import Journal.
Import BalanceSheet.

(** The date range plays no part in the Balance Sheet. *)
Lemma balance_sheet_any_range (r1 r2 : Dates.dateRange)
  (journal_lines : list journal_line) :
  generateBalanceSheet r1 journal_lines = generateBalanceSheet r2 journal_lines.
Proof. reflexivity. Qed.

(** C4: the code at the failing input.  The range ends on 2025-06-30; the
    Current Account has a debit of 500.00 on 2025-03-01 and a debit of
    250.00 on 2025-12-31.  The later posting is after the range, and the
    asset balance is 750.00, not 500.00. *)
Lemma balance_sheet_counts_later_postings :
  let range :=
    Dates.mk_dateRange (Dates.mk_date 2025 1 1) (Dates.mk_date 2025 6 30) in
  let bank := Some (mk_account "Current Account" "asset") in
  let later :=
    mk_journal_line bank (Dates.mk_date 2025 12 31) (Some 25000) (Some 0) in
  let lines :=
    [mk_journal_line bank (Dates.mk_date 2025 3 1) (Some 50000) (Some 0);
     later] in
  Dates.leb (journal_date later) (Dates.to range) = false /\
  assets (generateBalanceSheet range lines)
  = [mk_row "Current Account" 75000] /\
  totalAssets (generateBalanceSheet range lines) = 75000.
Proof.
  cbv zeta. repeat split.
Qed.

End BalanceSheetFacts.

(** ** VAT Return *)

Module VatReturnFacts.
Import VatReturn.

(** The in-range rows, as sums. *)
Lemma reduce_or_zero_invoices (f : selected -> Z) (range : Dates.dateRange)
  (invoices : list invoice) :
  reduce_or_zero f (select_invoices range invoices)
  = Money.reduce_sum
      (fun i => f (mk_selected (invoice_vat_amount i) (invoice_total i)
                     (invoice_date i)))
      (filter (fun i => Dates.within range (invoice_date i)) invoices).
Proof.
  unfold reduce_or_zero, select_invoices.
  rewrite or_zero_id, reduce_sum_map. reflexivity.
Qed.

Lemma reduce_or_zero_bills (f : selected -> Z) (range : Dates.dateRange)
  (bills : list bill) :
  reduce_or_zero f (select_bills range bills)
  = Money.reduce_sum
      (fun b => f (mk_selected (bill_vat_amount b) (bill_total b)
                     (bill_date b)))
      (filter (fun b => Dates.within range (bill_date b)) bills).
Proof.
  unfold reduce_or_zero, select_bills.
  rewrite or_zero_id, reduce_sum_map. reflexivity.
Qed.


(** C8: whatever the invoices, the bills and the date range, Box 3 is
    Box 1 plus Box 2, Box 5 is Box 3 less Box 4, and Boxes 2, 8 and 9 are
    zero. *)
Theorem vat_return_box_identities (dateRange : Dates.dateRange)
  (invoices : list invoice) (bills : list bill) :
  let r := generateVATReturn dateRange invoices bills in
  box3 r = box1 r + box2 r /\
  box5 r = box3 r - box4 r /\
  box2 r = 0 /\ box8 r = 0 /\ box9 r = 0.
Proof.
  cbv zeta. unfold generateVATReturn.
  cbn [box1 box2 box3 box4 box5 box8 box9].
  repeat split.
Qed.







(** The example of the specification: invoices with 240.00 of VAT and
    bills with 90.00 of VAT in the period leave 150.00 to pay. *)
Example vat_return_of_a_quarter :
  let q1 :=
    Dates.mk_dateRange (Dates.mk_date 2025 1 1) (Dates.mk_date 2025 3 31) in
  generateVATReturn q1
    [mk_invoice "INV-1" (Dates.mk_date 2025 1 15) 20000 120000 Sent;
     mk_invoice "INV-2" (Dates.mk_date 2025 3 31) 4000 24000 Paid;
     mk_invoice "INV-3" (Dates.mk_date 2025 4 1) 1000 6000 Sent]
    [mk_bill "B-1" (Dates.mk_date 2025 2 2) 9000 54000 Received]
  = mk_vatReturn 24000 0 24000 9000 15000 120000 45000 0 0.
Proof. reflexivity. Qed.

End VatReturnFacts.

(** ** Line calculators *)

Module LineFacts.
Import Tax.
Local Open Scope Q_scope.


Lemma calculateInvoiceTotal_total (taxCodes : list TaxCode)
  (lines : list Invoices.line) :
  let t := Invoices.calculateInvoiceTotal taxCodes lines in
  Invoices.total t = Invoices.subtotal t + Invoices.vatTotal t.
Proof. reflexivity. Qed.





End LineFacts.

(** ** Text *)

Module TextFacts.
Import Text.
Local Open Scope string_scope.



End TextFacts.

(** ** Matching and reconciliation *)

Module BankingFacts.
Import Banking.







(** The rows of [bank_transactions] after a reconciliation of
    [transactionId]: on the rows with that id the flag is set and the
    chosen reference is written, the other reference stays; the other
    rows stay. *)
Definition reconcile_rows (transactionId : string) (type : match_type)
  (itemId : string) (rows : list BankTransaction) : list BankTransaction :=
  map (fun t =>
         if String.eqb (id t) transactionId then
           mk_BankTransaction (id t) (date t) (description t) (amount t)
             (reference t) true
             (match type with invoice => Some itemId | bill => invoice_id t end)
             (match type with invoice => bill_id t | bill => Some itemId end)
         else t)
    rows.

(** The target of a match is a row of its table. *)
Definition target_exists (db : store) (type : match_type) (itemId : string)
  : Prop :=
  match type with
  | invoice => In itemId (invoice_ids db)
  | bill => In itemId (bill_ids db)
  end.

Lemma references_resolve_target (db : store) (type : match_type)
  (itemId : string) :
  target_exists db type itemId ->
  references_resolve db (build_updates type itemId) = true.
Proof.
  unfold target_exists, references_resolve.
  destruct type; simpl; intros H; rewrite ?andb_true_r;
    apply existsb_exists; exists itemId; split; auto;
    apply String.eqb_refl.
Qed.

(** C2 (amended): [handleReconcile] does not look at the [reconciled]
    flag.  Whenever the target exists it succeeds, on a transaction that
    is already reconciled as on one that is not: it sets [reconciled] and
    the reference of the chosen kind on the transaction and leaves its
    other reference, and every other transaction, as they were.  No
    outcome tells an already reconciled transaction apart; the page
    only offers the Reconcile button for transactions that are not
    reconciled. *)
Theorem handleReconcile_does_not_check_reconciled (db : store)
  (transactionId : string) (type : match_type) (itemId : string) :
  target_exists db type itemId ->
  handleReconcile db transactionId type itemId
  = (Success,
     mk_store (invoice_ids db) (bill_ids db)
       (reconcile_rows transactionId type itemId (bank_transactions db)))
  /\ (forall t, reconcile_offered t = true <-> reconciled t = false).
Proof.
  intros Hex. split.
  - unfold handleReconcile, update_bank_transactions.
    rewrite (references_resolve_target db type itemId Hex).
    rewrite andb_false_r. unfold reconcile_rows, apply_updates.
    destruct type; reflexivity.
  - intros t. unfold reconcile_offered. apply negb_true_iff.
Qed.

(** C2 at a concrete store: a transaction already matched to one invoice
    is matched again, to another. *)
Lemma handleReconcile_does_not_check_reconciled_witness :
  let t1 link :=
    mk_BankTransaction "t1" (Dates.mk_date 2025 4 2) "Payment INV-1001"
      12000 None true (Some link) None in
  let db link := mk_store ["i1"; "i2"]%string ["b1"]%string [t1 link] in
  handleReconcile (db "i1"%string) "t1" invoice "i2"
  = (Success, db "i2"%string).
Proof.
  cbv zeta.
  apply (proj1 (handleReconcile_does_not_check_reconciled
                  (mk_store ["i1"; "i2"]%string ["b1"]%string
                     [mk_BankTransaction "t1" (Dates.mk_date 2025 4 2)
                        "Payment INV-1001" 12000 None true
                        (Some "i1"%string) None])
                  "t1" invoice "i2" (or_intror (or_introl eq_refl)))).
Defined.

(** C2 (as stated) fails: a transaction is committed to an invoice and
    then, being reconciled, committed again to a bill.  Both commits
    succeed, and the second one changes the transaction: it ends up
    linked to the invoice and to the bill. *)
Lemma reconciled_transaction_is_committed_again :
  let t0 :=
    mk_BankTransaction "t1" (Dates.mk_date 2025 4 2) "Payment INV-1001"
      12000 None false None None in
  let db0 := mk_store ["i1"]%string ["b1"]%string [t0] in
  let first := handleReconcile db0 "t1" invoice "i1" in
  let second := handleReconcile (snd first) "t1" bill "b1" in
  fst first = Success /\
  map reconciled (bank_transactions (snd first)) = [true] /\
  fst second = Success /\
  bank_transactions (snd second) <> bank_transactions (snd first) /\
  map invoice_id (bank_transactions (snd second)) = [Some "i1"%string] /\
  map bill_id (bank_transactions (snd second)) = [Some "b1"%string].
Proof.
  cbv zeta. repeat split. discriminate.
Qed.

End BankingFacts.

(** * Further properties of the reports *)

(** ** Keyed rows under a change of row type *)

Section KeyedRowsMap.

Variables R R' : Type.
Variable key : R -> string.
Variable key' : R' -> string.
Variable g : R -> R'.
Hypothesis key_g : forall r, key' (g r) = key r.

Lemma find_row_map (name : string) (rows : list R) :
  find_row key' name (map g rows) = option_map g (find_row key name rows).
Proof.
  unfold find_row. induction rows as [|r rows IH]; simpl; [reflexivity|].
  rewrite key_g. destruct (String.eqb (key r) name); [reflexivity|exact IH].
Qed.

Lemma update_found_map (name : string) (f : R -> R) (f' : R' -> R')
  (rows : list R) :
  (forall r, f' (g r) = g (f r)) ->
  update_found key' name f' (map g rows)
  = map g (update_found key name f rows).
Proof.
  intros Hf. induction rows as [|r rows IH]; simpl; [reflexivity|].
  rewrite key_g. destruct (String.eqb (key r) name); simpl.
  - rewrite Hf. reflexivity.
  - rewrite IH. reflexivity.
Qed.

End KeyedRowsMap.

Section KeyedRowsMore.

Variable R : Type.
Variable key : R -> string.



End KeyedRowsMore.

(** ** Totals of the Profit & Loss *)

Module ProfitLossTotals.
Import Journal.
Import ProfitLoss.
Import ProfitLossFacts.

Lemma add_amount_total (name : string) (amount : Z) (rows : list row) :
  Money.reduce_sum total (add_amount name amount rows)
  = Money.reduce_sum total rows + amount.
Proof.
  unfold add_amount.
  destruct (find_row account_name name rows) as [r|] eqn:E.
  - rewrite (reduce_sum_update_found _ _ total _ _ amount) by reflexivity.
    rewrite E. reflexivity.
  - rewrite reduce_sum_app, reduce_sum_cons, reduce_sum_nil. simpl. lia.
Qed.

(** The sum of an array is the sum of what its lines added. *)
Lemma fold_gstep_total (sel : journal_line -> bool) (amt : journal_line -> Z)
  (lines : list journal_line) (rows : list row) :
  Money.reduce_sum total (fold_left (gstep sel amt) lines rows)
  = Money.reduce_sum total rows + Money.reduce_sum amt (filter sel lines).
Proof.
  revert rows. induction lines as [|l ls IH]; intros rows; simpl.
  - rewrite reduce_sum_nil. lia.
  - rewrite IH. unfold gstep. destruct (sel l).
    + rewrite add_amount_total, reduce_sum_cons. lia.
    + lia.
Qed.

Lemma pl_fold_step_sums (lines : list journal_line) :
  let st := fold_left step lines ([], []) in
  Money.reduce_sum total (fst st)
  = Money.reduce_sum credit_less_debit (filter is_income lines) /\
  Money.reduce_sum total (snd st)
  = Money.reduce_sum debit_less_credit (filter is_expense lines).
Proof.
  cbv zeta. rewrite fold_step_arrays. cbn [fst snd].
  rewrite !fold_gstep_total, !reduce_sum_nil. split; lia.
Qed.

(** Total income is the sum of [credit - debit] over the lines of income
    accounts, total expenses the sum of [debit - credit] over the lines of
    expense accounts, and net profit their difference: grouping the lines
    by account name loses and adds nothing. *)
Theorem profit_loss_totals (lines : list journal_line) :
  let pl := generateProfitLoss (Some lines) in
  totalIncome pl
  = Money.reduce_sum credit_less_debit (filter is_income lines) /\
  totalExpenses pl
  = Money.reduce_sum debit_less_credit (filter is_expense lines) /\
  netProfit pl
  = Money.reduce_sum credit_less_debit (filter is_income lines)
    - Money.reduce_sum debit_less_credit (filter is_expense lines).
Proof.
  cbv zeta. unfold generateProfitLoss.
  cbn [totalIncome totalExpenses netProfit].
  destruct (pl_fold_step_sums lines) as [Hi He]. cbv zeta in Hi, He.
  rewrite Hi, He. repeat split.
Qed.

End ProfitLossTotals.

(** ** Rows and totals of the Balance Sheet *)

Module BalanceSheetRows.
Import Journal.
Import ProfitLossFacts.

Definition is_asset (l : journal_line) : bool :=
  type_is (accountType l) "asset".

Definition is_liability (l : journal_line) : bool :=
  type_is (accountType l) "liability".

Definition is_equity (l : journal_line) : bool :=
  type_is (accountType l) "equity".

(** A row of the Balance Sheet read as a row of the Profit & Loss: both
    arrays are filled by the same find-then-add-or-push. *)
Definition as_pl_row (r : BalanceSheet.row) : ProfitLoss.row :=
  ProfitLoss.mk_row (BalanceSheet.account_name r) (BalanceSheet.balance r).

Lemma add_balance_as_pl (name : string) (b : Z)
  (rows : list BalanceSheet.row) :
  map as_pl_row (BalanceSheet.add_balance name b rows)
  = ProfitLoss.add_amount name b (map as_pl_row rows).
Proof.
  unfold BalanceSheet.add_balance, ProfitLoss.add_amount.
  rewrite (find_row_map _ _ BalanceSheet.account_name
             ProfitLoss.account_name as_pl_row) by reflexivity.
  destruct (find_row BalanceSheet.account_name name rows) as [r|]; simpl.
  - symmetry. apply update_found_map; reflexivity.
  - rewrite map_app. reflexivity.
Qed.

Lemma type_is_exclusive (t : option string) (a b : string) :
  type_is t a = true -> a <> b -> type_is t b = false.
Proof.
  unfold type_is. destruct t as [u|]; [|discriminate].
  intros H Hab. apply String.eqb_eq in H. subst u.
  apply String.eqb_neq, Hab.
Qed.

(** The loop runs the three arrays side by side. *)
Lemma bs_fold_step_arrays (lines : list journal_line) (st : BalanceSheet.arrays) :
  let st' := fold_left BalanceSheet.step lines st in
  map as_pl_row (BalanceSheet.a_assets st')
  = fold_left (gstep is_asset debit_less_credit) lines
      (map as_pl_row (BalanceSheet.a_assets st)) /\
  map as_pl_row (BalanceSheet.a_liabilities st')
  = fold_left (gstep is_liability credit_less_debit) lines
      (map as_pl_row (BalanceSheet.a_liabilities st)) /\
  map as_pl_row (BalanceSheet.a_equity st')
  = fold_left (gstep is_equity credit_less_debit) lines
      (map as_pl_row (BalanceSheet.a_equity st)).
Proof.
  cbv zeta. revert st. induction lines as [|l ls IH]; intros st.
  - simpl. auto.
  - cbn [fold_left]. destruct (IH (BalanceSheet.step st l)) as (Ha & Hl & He).
    rewrite Ha, Hl, He. clear IH Ha Hl He.
    unfold BalanceSheet.step, gstep, is_asset, is_liability, is_equity,
      debit_less_credit, credit_less_debit.
    destruct (type_is (accountType l) "asset") eqn:Ea.
    + rewrite (type_is_exclusive _ _ "liability" Ea) by discriminate.
      rewrite (type_is_exclusive _ _ "equity" Ea) by discriminate.
      cbn [BalanceSheet.a_assets BalanceSheet.a_liabilities
             BalanceSheet.a_equity].
      rewrite add_balance_as_pl. auto.
    + destruct (type_is (accountType l) "liability") eqn:El.
      * rewrite (type_is_exclusive _ _ "equity" El) by discriminate.
        cbn [BalanceSheet.a_assets BalanceSheet.a_liabilities
               BalanceSheet.a_equity].
        rewrite add_balance_as_pl. auto.
      * destruct (type_is (accountType l) "equity") eqn:Ee.
        -- cbn [BalanceSheet.a_assets BalanceSheet.a_liabilities
                  BalanceSheet.a_equity].
           rewrite add_balance_as_pl. auto.
        -- auto.
Qed.

(** What one array of the Balance Sheet holds: one row per account name
    among the lines that [sel] picks, with the sum of [amt] over them. *)
Definition rows_of (sel : journal_line -> bool) (amt : journal_line -> Z)
  (rows : list BalanceSheet.row) (lines : list journal_line) : Prop :=
  NoDup (map BalanceSheet.account_name rows)
  /\ (forall name,
        In name (map BalanceSheet.account_name rows)
        <-> exists l, In l lines /\ sel l = true /\ accountName l = name)
  /\ (forall r, In r rows ->
        BalanceSheet.balance r
        = group_sum sel amt (BalanceSheet.account_name r) lines).

Lemma rows_of_grouped (sel : journal_line -> bool) (amt : journal_line -> Z)
  (rows : list BalanceSheet.row) (lines : list journal_line) :
  grouped sel amt (map as_pl_row rows) lines -> rows_of sel amt rows lines.
Proof.
  intros (Hnd & Hnames & Htot). rewrite map_map in Hnd, Hnames.
  split; [exact Hnd|split; [exact Hnames|]].
  intros r Hr. apply (Htot (as_pl_row r)). apply in_map, Hr.
Qed.

(** The Balance Sheet has exactly one row for every asset, liability and
    equity account name that has a line, whatever the dates of the lines;
    an asset row carries [debit - credit] summed over the lines of that
    name, a liability or equity row [credit - debit]. *)
Theorem balance_sheet_has_a_row_per_account (dateRange : Dates.dateRange)
  (lines : list journal_line) :
  let bs := BalanceSheet.generateBalanceSheet dateRange lines in
  rows_of is_asset debit_less_credit (BalanceSheet.assets bs) lines /\
  rows_of is_liability credit_less_debit (BalanceSheet.liabilities bs) lines /\
  rows_of is_equity credit_less_debit (BalanceSheet.equity bs) lines.
Proof.
  cbv zeta. unfold BalanceSheet.generateBalanceSheet, select_journal_lines.
  cbn [BalanceSheet.assets BalanceSheet.liabilities BalanceSheet.equity].
  destruct (bs_fold_step_arrays lines (BalanceSheet.mk_arrays [] [] []))
    as (Ha & Hl & He). cbv zeta in Ha, Hl, He. simpl map in Ha, Hl, He.
  split; [|split]; apply rows_of_grouped.
  - rewrite Ha. apply grouped_fold.
  - rewrite Hl. apply grouped_fold.
  - rewrite He. apply grouped_fold.
Qed.

Lemma reduce_sum_as_pl (rows : list BalanceSheet.row) :
  Money.reduce_sum BalanceSheet.balance rows
  = Money.reduce_sum ProfitLoss.total (map as_pl_row rows).
Proof. rewrite reduce_sum_map. reflexivity. Qed.

Lemma bs_fold_step_sums (lines : list journal_line) :
  let st := fold_left BalanceSheet.step lines (BalanceSheet.mk_arrays [] [] []) in
  Money.reduce_sum BalanceSheet.balance (BalanceSheet.a_assets st)
  = Money.reduce_sum debit_less_credit (filter is_asset lines) /\
  Money.reduce_sum BalanceSheet.balance (BalanceSheet.a_liabilities st)
  = Money.reduce_sum credit_less_debit (filter is_liability lines) /\
  Money.reduce_sum BalanceSheet.balance (BalanceSheet.a_equity st)
  = Money.reduce_sum credit_less_debit (filter is_equity lines).
Proof.
  cbv zeta.
  destruct (bs_fold_step_arrays lines (BalanceSheet.mk_arrays [] [] []))
    as (Ha & Hl & He). cbv zeta in Ha, Hl, He. simpl map in Ha, Hl, He.
  rewrite !reduce_sum_as_pl, Ha, Hl, He.
  rewrite !ProfitLossTotals.fold_gstep_total, !reduce_sum_nil.
  repeat split; lia.
Qed.

(** The three totals of the Balance Sheet are sums over all the lines of
    the table of the account type: [debit - credit] for assets,
    [credit - debit] for liabilities and for equity. *)
Theorem balance_sheet_totals (dateRange : Dates.dateRange)
  (lines : list journal_line) :
  let bs := BalanceSheet.generateBalanceSheet dateRange lines in
  BalanceSheet.totalAssets bs
  = Money.reduce_sum debit_less_credit (filter is_asset lines) /\
  BalanceSheet.totalLiabilities bs
  = Money.reduce_sum credit_less_debit (filter is_liability lines) /\
  BalanceSheet.totalEquity bs
  = Money.reduce_sum credit_less_debit (filter is_equity lines).
Proof.
  cbv zeta. unfold BalanceSheet.generateBalanceSheet, select_journal_lines.
  cbn [BalanceSheet.totalAssets BalanceSheet.totalLiabilities
         BalanceSheet.totalEquity].
  exact (bs_fold_step_sums lines).
Qed.

End BalanceSheetRows.

(** ** The reports together *)

Module ReportsTogether.
Import Journal.
Import ProfitLossFacts.
Import BalanceSheetRows.
Import TrialBalanceFacts.





End ReportsTogether.

(** ** Rows of the Trial Balance *)

Module TrialBalanceRows.
Import Journal.
Import TrialBalance.

Definition of_account (name : string) (l : journal_line) : bool :=
  String.eqb (accountName l) name.

(** The debits and the credits of the lines of one account name. *)
Definition debit_of (name : string) (lines : list journal_line) : Z :=
  Money.reduce_sum (fun l => Money.Number (debit_amount l))
    (filter (of_account name) lines).

Definition credit_of (name : string) (lines : list journal_line) : Z :=
  Money.reduce_sum (fun l => Money.Number (credit_amount l))
    (filter (of_account name) lines).

(** The account type shown for a name: the one of its first line. *)
Definition first_type (name : string) (lines : list journal_line)
  : option string :=
  option_map (fun l => text_or (accountType l) "unknown")
    (find (of_account name) lines).

(** What [accountBalances] holds once [lines] have been processed. *)
Definition rows_of (rows : list row) (lines : list journal_line) : Prop :=
  NoDup (map account_name rows)
  /\ (forall name,
        In name (map account_name rows)
        <-> exists l, In l lines /\ accountName l = name)
  /\ (forall r, In r rows ->
        debit r = debit_of (account_name r) lines
        /\ credit r = credit_of (account_name r) lines
        /\ first_type (account_name r) lines = Some (account_type r)).


Lemma filter_absent {A : Type} (p : A -> bool) (xs : list A) :
  (forall x, In x xs -> p x = false) -> filter p xs = [].
Proof.
  induction xs as [|x xs IH]; simpl; intros H; [reflexivity|].
  rewrite (H x (or_introl eq_refl)). apply IH. intros y Hy. apply H. auto.
Qed.







End TrialBalanceRows.

(** ** More on the VAT Return *)

Module VatReturnRange.
Import VatReturn.

Lemma leb_trans (a b c : Dates.date) :
  Dates.leb a b = true -> Dates.leb b c = true -> Dates.leb a c = true.
Proof.
  unfold Dates.leb.
  rewrite !orb_true_iff, !andb_true_iff, !orb_true_iff, !andb_true_iff,
    !Z.ltb_lt, !Z.eqb_eq, !Z.leb_le.
  lia.
Qed.

Lemma within_nonempty (r : Dates.dateRange) (d : Dates.date) :
  Dates.within r d = true -> Dates.leb (Dates.from r) (Dates.to r) = true.
Proof.
  unfold Dates.within. rewrite andb_true_iff. intros [H1 H2].
  exact (leb_trans _ _ _ H1 H2).
Qed.

Lemma filter_none {A : Type} (p : A -> bool) (xs : list A) :
  (forall x, p x = false) -> filter p xs = [].
Proof.
  intros H. induction xs as [|x xs IH]; simpl; [reflexivity|].
  rewrite H. exact IH.
Qed.



(** When the From date of the page is after its To date, every box of
    the return is zero, whatever the invoices and the bills. *)
Theorem vat_return_of_an_inverted_range (dateRange : Dates.dateRange)
  (invoices : list invoice) (bills : list bill) :
  Dates.leb (Dates.from dateRange) (Dates.to dateRange) = false ->
  generateVATReturn dateRange invoices bills
  = mk_vatReturn 0 0 0 0 0 0 0 0 0.
Proof.
  intros Hinv.
  assert (Hout : forall d, Dates.within dateRange d = false).
  { intros d. destruct (Dates.within dateRange d) eqn:E; [|reflexivity].
    apply within_nonempty in E. congruence. }
  unfold generateVATReturn, select_invoices, select_bills.
  rewrite (filter_none _ invoices) by (intros x; apply Hout).
  rewrite (filter_none _ bills) by (intros x; apply Hout).
  reflexivity.
Qed.

(** From 2025-03-31 to 2025-01-01. *)
Lemma vat_return_of_an_inverted_range_witness :
  generateVATReturn
    (Dates.mk_dateRange (Dates.mk_date 2025 3 31) (Dates.mk_date 2025 1 1))
    [mk_invoice "INV-1" (Dates.mk_date 2025 2 1) 2000 12000 Sent] []
  = mk_vatReturn 0 0 0 0 0 0 0 0 0.
Proof.
  exact (vat_return_of_an_inverted_range
           (Dates.mk_dateRange (Dates.mk_date 2025 3 31)
              (Dates.mk_date 2025 1 1))
           [mk_invoice "INV-1" (Dates.mk_date 2025 2 1) 2000 12000 Sent] []
           eq_refl).
Defined.

Lemma reduce_sum_plus {A : Type} (f g : A -> Z) (xs : list A) :
  Money.reduce_sum (fun x => f x + g x) xs
  = Money.reduce_sum f xs + Money.reduce_sum g xs.
Proof.
  induction xs as [|x xs IH]; [reflexivity|].
  rewrite !reduce_sum_cons, IH. lia.
Qed.

Lemma reduce_sum_ext {A : Type} (f g : A -> Z) (xs : list A) :
  (forall x, f x = g x) -> Money.reduce_sum f xs = Money.reduce_sum g xs.
Proof.
  intros H. induction xs as [|x xs IH]; [reflexivity|].
  rewrite !reduce_sum_cons, IH, H. reflexivity.
Qed.

(** Box 1 and Box 6 add up to the gross total of the invoices dated
    within the range, and Box 4 and Box 7 to the gross total of the bills
    dated within the range. *)
Theorem vat_boxes_add_up_to_gross (dateRange : Dates.dateRange)
  (invoices : list invoice) (bills : list bill) :
  let r := generateVATReturn dateRange invoices bills in
  box1 r + box6 r
  = Money.reduce_sum invoice_total
      (filter (fun i => Dates.within dateRange (invoice_date i)) invoices) /\
  box4 r + box7 r
  = Money.reduce_sum bill_total
      (filter (fun b => Dates.within dateRange (bill_date b)) bills).
Proof.
  cbv zeta. unfold generateVATReturn. cbn [box1 box4 box6 box7].
  rewrite !VatReturnFacts.reduce_or_zero_invoices,
    !VatReturnFacts.reduce_or_zero_bills.
  rewrite <- !reduce_sum_plus.
  split; apply reduce_sum_ext; intros x; cbn [vat_amount total]; lia.
Qed.

End VatReturnRange.

(** * Further properties of the Banking page *)

Module BankingMore.
Import Banking.
Import BankingData.
Import BankingFacts.




Lemma checked_status_is_not_loaded (r : bills_row) :
  bills_status_check r = true ->
  existsb (String.eqb (bl_status r))
    ["approved"; "awaiting_approval"]%string = false.
Proof.
  unfold bills_status_check. cbn [existsb].
  rewrite !orb_true_iff, !String.eqb_eq.
  intros [H|[H|[H|[H|[H|H]]]]]; try discriminate H;
    rewrite H; reflexivity.
Qed.

(** The page loads the bills whose status is 'approved' or
    'awaiting_approval', and the table only admits the statuses 'draft',
    'received', 'paid', 'overdue' and 'cancelled': no bill is ever
    loaded, and a payment or a transaction of zero has no suggestion. *)
Theorem no_bill_is_loaded_for_matching (table : list bills_row)
  (invoices : list Invoice) (transaction : BankTransaction) :
  Forall (fun r => bills_status_check r = true) table ->
  fetch_bills table = []
  /\ (amount transaction <= 0 ->
      getMatchingSuggestions invoices (fetch_bills table) transaction = []).
Proof.
  intros Hcheck.
  assert (Hnone : fetch_bills table = []).
  { unfold fetch_bills.
    induction Hcheck as [|r rs Hr Hrs IH]; [reflexivity|].
    cbn [filter]. rewrite (checked_status_is_not_loaded r Hr). exact IH. }
  split; [exact Hnone|]. intros Hle. rewrite Hnone.
  unfold getMatchingSuggestions.
  destruct (Z.ltb_spec 0 (amount transaction)); [lia|].
  destruct (amount transaction <? 0); reflexivity.
Qed.

(** A received bill of 54.00 and the payment that settles it. *)
Lemma no_bill_is_loaded_for_matching_witness :
  let table :=
    [mk_bills_row "b1" "B-1" 5400 "received" (Some "Office World"%string)] in
  let tx :=
    mk_BankTransaction "t1" (Dates.mk_date 2025 4 2) "OFFICE WORLD B-1"
      (-5400) None false None None in
  fetch_bills table = [] /\
  getMatchingSuggestions [] (fetch_bills table) tx = [].
Proof.
  cbv zeta.
  destruct (no_bill_is_loaded_for_matching
              [mk_bills_row "b1" "B-1" 5400 "received"
                 (Some "Office World"%string)]
              []
              (mk_BankTransaction "t1" (Dates.mk_date 2025 4 2)
                 "OFFICE WORLD B-1" (-5400) None false None None)
              ltac:(repeat constructor)) as [H1 H2].
  exact (conj H1 (H2 ltac:(discriminate))).
Defined.

End BankingMore.

(** ** Reconciliation: failures, repetition and the summary cards *)

Module ReconcileMore.
Import Banking.
Import BankingData.
Import BankingFacts.

Lemma references_resolve_iff (db : store) (type : match_type)
  (itemId : string) :
  references_resolve db (build_updates type itemId) = true
  <-> target_exists db type itemId.
Proof.
  split; [|apply references_resolve_target].
  unfold references_resolve, target_exists.
  destruct type; simpl; rewrite ?andb_true_r; intros H;
    apply existsb_exists in H; destruct H as (x & Hx & Heq);
    apply String.eqb_eq in Heq; subst x; exact Hx.
Qed.

Lemma existsb_id (transactionId : string) (rows : list BankTransaction) :
  existsb (fun t => String.eqb (id t) transactionId) rows = true
  <-> In transactionId (map id rows).
Proof.
  rewrite existsb_exists, in_map_iff. split.
  - intros (t & Ht & Heq). apply String.eqb_eq in Heq. exists t. auto.
  - intros (t & Heq & Ht). exists t. split; [exact Ht|].
    apply String.eqb_eq, Heq.
Qed.

(** When the target is not a row of its table (as with the empty id that
    "Mark as Reconciled (Manual)" passes) and the transaction exists, the
    reconciliation fails and the store is what it was. *)
Theorem handleReconcile_fails_without_target (db : store)
  (transactionId : string) (type : match_type) (itemId : string) :
  ~ target_exists db type itemId ->
  In transactionId (map id (bank_transactions db)) ->
  handleReconcile db transactionId type itemId = (Failed, db).
Proof.
  intros Hno Hin. unfold handleReconcile, update_bank_transactions.
  apply existsb_id in Hin. rewrite Hin.
  destruct (references_resolve db (build_updates type itemId)) eqn:E.
  - apply references_resolve_iff in E. contradiction.
  - reflexivity.
Qed.

(** The manual mark on a transaction of the store. *)
Lemma handleReconcile_fails_without_target_witness :
  let db :=
    mk_store ["i1"]%string []
      [mk_BankTransaction "t1" (Dates.mk_date 2025 4 2) "Cash" 5000 None
         false None None] in
  handleReconcile db "t1" invoice "" = (Failed, db).
Proof.
  cbv zeta.
  refine (handleReconcile_fails_without_target
            (mk_store ["i1"]%string []
               [mk_BankTransaction "t1" (Dates.mk_date 2025 4 2) "Cash" 5000
                  None false None None])
            "t1" invoice "" _ _).
  - simpl. intros [H|[]]. discriminate H.
  - simpl. auto.
Defined.

Lemma map_no_hit (transactionId : string) (u : updates)
  (rows : list BankTransaction) :
  ~ In transactionId (map id rows) ->
  map (fun t => if String.eqb (id t) transactionId
                then apply_updates u t else t) rows
  = rows.
Proof.
  induction rows as [|t rows IH]; simpl; intros H; [reflexivity|].
  destruct (String.eqb_spec (id t) transactionId) as [E|E].
  - elim H. auto.
  - rewrite IH; [reflexivity|]. intros H'. apply H. auto.
Qed.

(** When no transaction has the id, the update touches no row: the page
    reports success and the store is what it was. *)
Theorem handleReconcile_of_an_unknown_transaction (db : store)
  (transactionId : string) (type : match_type) (itemId : string) :
  target_exists db type itemId ->
  ~ In transactionId (map id (bank_transactions db)) ->
  handleReconcile db transactionId type itemId = (Success, db).
Proof.
  intros Hex Hno. unfold handleReconcile, update_bank_transactions.
  rewrite (references_resolve_target db type itemId Hex), andb_false_r.
  rewrite (map_no_hit _ _ _ Hno). destruct db. reflexivity.
Qed.

Lemma handleReconcile_of_an_unknown_transaction_witness :
  let db :=
    mk_store ["i1"]%string []
      [mk_BankTransaction "t1" (Dates.mk_date 2025 4 2) "Cash" 5000 None
         false None None] in
  handleReconcile db "t2" invoice "i1" = (Success, db).
Proof.
  cbv zeta.
  refine (handleReconcile_of_an_unknown_transaction
            (mk_store ["i1"]%string []
               [mk_BankTransaction "t1" (Dates.mk_date 2025 4 2) "Cash" 5000
                  None false None None])
            "t2" invoice "i1" _ _).
  - simpl. auto.
  - simpl. intros [H|[]]. discriminate H.
Defined.

(** What a reconciliation may change of a transaction: the flag, upwards
    only, and the two references. *)
Definition same_entry (t t' : BankTransaction) : Prop :=
  id t' = id t /\ date t' = date t /\ description t' = description t
  /\ amount t' = amount t /\ reference t' = reference t
  /\ (reconciled t = true -> reconciled t' = true).

Lemma same_entry_refl (t : BankTransaction) : same_entry t t.
Proof. unfold same_entry. auto 10. Qed.

Lemma updated_rows_same_entry (transactionId : string) (type : match_type)
  (itemId : string) (rows : list BankTransaction) :
  Forall2 same_entry rows
    (map (fun t => if String.eqb (id t) transactionId
                   then apply_updates (build_updates type itemId) t else t)
       rows).
Proof.
  induction rows as [|t rows IH]; simpl; constructor; [|exact IH].
  destruct (String.eqb (id t) transactionId); [|apply same_entry_refl].
  unfold same_entry. destruct type; simpl; auto 10.
Qed.

Lemma same_entry_balance (rows rows' : list BankTransaction) :
  Forall2 same_entry rows rows' -> totalBalance rows' = totalBalance rows.
Proof.
  unfold totalBalance. induction 1 as [|t t' rows rows' Ht _ IH].
  - reflexivity.
  - rewrite !reduce_sum_cons, IH.
    destruct Ht as (_ & _ & _ & Ha & _). rewrite Ha. reflexivity.
Qed.

Lemma same_entry_reconciled (rows rows' : list BankTransaction) :
  Forall2 same_entry rows rows' ->
  (reconciledCount rows <= reconciledCount rows')%nat.
Proof.
  unfold reconciledCount. induction 1 as [|t t' rows rows' Ht _ IH].
  - apply Nat.le_refl.
  - destruct Ht as (_ & _ & _ & _ & _ & Hr). cbn [filter].
    destruct (reconciled t).
    + rewrite (Hr eq_refl). simpl. apply le_n_S, IH.
    + destruct (reconciled t'); simpl; [apply Nat.le_le_succ_r|]; exact IH.
Qed.

(** Whatever its arguments and its outcome, a reconciliation keeps the
    tables of invoice and bill ids, keeps the id, date, description,
    amount and reference of every transaction, in order, and never clears
    a reconciled flag; so the total balance is unchanged and the number of
    reconciled transactions does not go down. *)
Theorem handleReconcile_keeps_the_entries (db : store)
  (transactionId : string) (type : match_type) (itemId : string) :
  let db' := snd (handleReconcile db transactionId type itemId) in
  invoice_ids db' = invoice_ids db /\
  bill_ids db' = bill_ids db /\
  Forall2 same_entry (bank_transactions db) (bank_transactions db') /\
  totalBalance (bank_transactions db') = totalBalance (bank_transactions db) /\
  (reconciledCount (bank_transactions db)
   <= reconciledCount (bank_transactions db'))%nat.
Proof.
  cbv zeta.
  assert (H : invoice_ids (snd (handleReconcile db transactionId type itemId))
              = invoice_ids db
              /\ bill_ids (snd (handleReconcile db transactionId type itemId))
                 = bill_ids db
              /\ Forall2 same_entry (bank_transactions db)
                   (bank_transactions
                      (snd (handleReconcile db transactionId type itemId)))).
  { unfold handleReconcile, update_bank_transactions.
    destruct (existsb _ (bank_transactions db) && _); cbn [snd].
    - repeat split. clear. induction (bank_transactions db);
        constructor; [apply same_entry_refl|assumption].
    - cbn [invoice_ids bill_ids bank_transactions]. repeat split.
      apply updated_rows_same_entry. }
  destruct H as (Hi & Hb & Hrows).
  repeat split; try assumption.
  - apply same_entry_balance, Hrows.
  - apply same_entry_reconciled, Hrows.
Qed.

Lemma apply_updates_twice (u : updates) (t : BankTransaction) :
  apply_updates u (apply_updates u t) = apply_updates u t.
Proof.
  unfold apply_updates. simpl.
  destruct (u_invoice_id u), (u_bill_id u); reflexivity.
Qed.

Lemma existsb_hit_updated (transactionId : string) (u : updates)
  (rows : list BankTransaction) :
  existsb (fun t => String.eqb (id t) transactionId)
    (map (fun t => if String.eqb (id t) transactionId
                   then apply_updates u t else t) rows)
  = existsb (fun t => String.eqb (id t) transactionId) rows.
Proof.
  induction rows as [|t rows IH]; simpl; [reflexivity|].
  rewrite IH. destruct (String.eqb (id t) transactionId) eqn:E; simpl;
    rewrite E; reflexivity.
Qed.

Lemma map_updated_twice (transactionId : string) (u : updates)
  (rows : list BankTransaction) :
  let upd := fun t => if String.eqb (id t) transactionId
                      then apply_updates u t else t in
  map upd (map upd rows) = map upd rows.
Proof.
  cbv zeta. induction rows as [|t rows IH]; simpl; [reflexivity|].
  rewrite IH. f_equal.
  destruct (String.eqb (id t) transactionId) eqn:E.
  - simpl. rewrite E, apply_updates_twice. reflexivity.
  - rewrite E. reflexivity.
Qed.

(** Reconciling again with the same arguments has the same outcome and
    leaves the store as the first reconciliation left it. *)
Theorem handleReconcile_again (db : store) (transactionId : string)
  (type : match_type) (itemId : string) :
  let first := handleReconcile db transactionId type itemId in
  handleReconcile (snd first) transactionId type itemId = first.
Proof.
  cbv zeta. unfold handleReconcile, update_bank_transactions.
  destruct (existsb _ (bank_transactions db)
            && negb (references_resolve db (build_updates type itemId)))
    eqn:E; cbn [snd].
  - rewrite E. reflexivity.
  - cbn [bank_transactions].
    rewrite existsb_hit_updated.
    replace (references_resolve _ (build_updates type itemId))
      with (references_resolve db (build_updates type itemId))
      by reflexivity.
    rewrite E. cbn [invoice_ids bill_ids bank_transactions].
    rewrite (map_updated_twice transactionId (build_updates type itemId)).
    reflexivity.
Qed.

Lemma counts_partition (rows : list BankTransaction) :
  (reconciledCount rows + unreconciledCount rows = List.length rows)%nat.
Proof.
  unfold reconciledCount, unreconciledCount.
  induction rows as [|t rows IH]; simpl; [reflexivity|].
  destruct (reconciled t); simpl; lia.
Qed.

Lemma reconciledCount_after (transactionId : string) (type : match_type)
  (itemId : string) (rows : list BankTransaction) (t : BankTransaction) :
  NoDup (map id rows) -> In t rows -> id t = transactionId ->
  reconciled t = false ->
  reconciledCount
    (map (fun x => if String.eqb (id x) transactionId
                   then apply_updates (build_updates type itemId) x else x)
       rows)
  = S (reconciledCount rows).
Proof.
  unfold reconciledCount.
  induction rows as [|x xs IH]; intros Hnd Hin Hid Hrec; [contradiction|].
  simpl in Hnd. inversion Hnd as [|k ks Hnotin Hnd']; subst k ks.
  cbn [map filter].
  destruct (String.eqb_spec (id x) transactionId) as [E|E].
  - assert (t = x).
    { destruct Hin as [Hx|Hx]; [auto|]. elim Hnotin.
      rewrite E, <- Hid. apply in_map, Hx. }
    subst x. rewrite Hrec.
    rewrite map_no_hit by (rewrite <- E; exact Hnotin).
    destruct type; reflexivity.
  - destruct Hin as [Hx|Hx]; [congruence|].
    destruct (reconciled x); simpl; rewrite (IH Hnd' Hx Hid Hrec);
      reflexivity.
Qed.

(** When ids are not repeated, reconciling a transaction of the store
    that is not reconciled yet, against a target that exists, succeeds and
    moves exactly one transaction from the Unreconciled card to the
    Reconciled card. *)
Theorem handleReconcile_moves_one_card (db : store) (t : BankTransaction)
  (type : match_type) (itemId : string) :
  NoDup (map id (bank_transactions db)) ->
  In t (bank_transactions db) ->
  reconciled t = false ->
  target_exists db type itemId ->
  let after := handleReconcile db (id t) type itemId in
  fst after = Success /\
  reconciledCount (bank_transactions (snd after))
  = S (reconciledCount (bank_transactions db)) /\
  S (unreconciledCount (bank_transactions (snd after)))
  = unreconciledCount (bank_transactions db).
Proof.
  intros Hnd Hin Hrec Hex. cbv zeta.
  unfold handleReconcile, update_bank_transactions.
  rewrite (references_resolve_target db type itemId Hex), andb_false_r.
  cbn [fst snd bank_transactions].
  pose proof (reconciledCount_after (id t) type itemId _ t Hnd Hin eq_refl
                Hrec) as Hcount.
  split; [reflexivity|split; [exact Hcount|]].
  pose proof (counts_partition (bank_transactions db)) as H1.
  pose proof (counts_partition
                (map (fun x => if String.eqb (id x) (id t)
                               then apply_updates (build_updates type itemId) x
                               else x)
                   (bank_transactions db))) as H2.
  rewrite length_map in H2. lia.
Qed.

(** Two transactions, the second one reconciled against invoice i1. *)
Lemma handleReconcile_moves_one_card_witness :
  let t1 :=
    mk_BankTransaction "t1" (Dates.mk_date 2025 4 1) "Cash" 5000 None
      false None None in
  let t2 :=
    mk_BankTransaction "t2" (Dates.mk_date 2025 4 2) "Payment INV-1001"
      12000 None false None None in
  let db := mk_store ["i1"]%string [] [t1; t2] in
  reconciledCount (bank_transactions (snd (handleReconcile db "t2" invoice "i1")))
  = 1%nat.
Proof.
  cbv zeta.
  refine (proj1 (proj2 (handleReconcile_moves_one_card
            (mk_store ["i1"]%string []
               [mk_BankTransaction "t1" (Dates.mk_date 2025 4 1) "Cash" 5000
                  None false None None;
                mk_BankTransaction "t2" (Dates.mk_date 2025 4 2)
                  "Payment INV-1001" 12000 None false None None])
            (mk_BankTransaction "t2" (Dates.mk_date 2025 4 2)
               "Payment INV-1001" 12000 None false None None)
            invoice "i1" _ _ eq_refl _))).
  - simpl. repeat constructor; simpl; intuition discriminate.
  - simpl. auto.
  - simpl. auto.
Defined.

End ReconcileMore.

(** * Properties of the forms *)

Module ArraysFacts.
Import Arrays.

Lemma mapi_from_length {A B : Type} (f : A -> nat -> B) (xs : list A)
  (i : nat) :
  List.length (mapi_from i f xs) = List.length xs.
Proof.
  revert i. induction xs as [|x xs IH]; intros i; simpl; [reflexivity|].
  rewrite IH. reflexivity.
Qed.

Lemma mapi_from_nth {A B : Type} (f : A -> nat -> B) (xs : list A)
  (i j : nat) :
  nth_error (mapi_from i f xs) j
  = option_map (fun x => f x (i + j)%nat) (nth_error xs j).
Proof.
  revert i j. induction xs as [|x xs IH]; intros i j.
  - destruct j; reflexivity.
  - destruct j as [|j]; simpl.
    + rewrite Nat.add_0_r. reflexivity.
    + rewrite IH. rewrite Nat.add_succ_comm. reflexivity.
Qed.

(** Filtering out one index removes the element at that index. *)
Lemma filteri_from_remove {A : Type} (xs : list A) (i n : nat) :
  filteri_from i (fun _ j => negb (Nat.eqb j (i + n))) xs
  = firstn n xs ++ skipn (S n) xs.
Proof.
  revert i n. induction xs as [|x xs IH]; intros i n.
  - destruct n; reflexivity.
  - cbn [filteri_from]. destruct n as [|n].
    + rewrite Nat.add_0_r, Nat.eqb_refl. cbn [negb firstn skipn app].
      clear IH. revert i. induction xs as [|y ys IHy]; intros i;
        [reflexivity|].
      cbn [filteri_from].
      destruct (Nat.eqb_spec (S i) i) as [E|E]; [lia|]. cbn [negb].
      f_equal.
      assert (H : forall k ys',
                 (i < k)%nat ->
                 filteri_from k (fun (_ : A) j => negb (Nat.eqb j i)) ys'
                 = ys').
      { intros k ys'. revert k. induction ys' as [|z zs IHz]; intros k Hk;
          [reflexivity|].
        cbn [filteri_from].
        destruct (Nat.eqb_spec k i); [lia|]. cbn [negb].
        rewrite IHz by lia. reflexivity. }
      apply H. lia.
    + destruct (Nat.eqb_spec i (i + S n)) as [E|E]; [lia|]. cbn [negb].
      replace (i + S n)%nat with (S i + n)%nat by lia.
      rewrite (IH (S i) n). reflexivity.
Qed.

Lemma filteri_remove {A : Type} (xs : list A) (n : nat) :
  filteri (fun _ j => negb (Nat.eqb j n)) xs
  = firstn n xs ++ skipn (S n) xs.
Proof. exact (filteri_from_remove xs 0 n). Qed.

Lemma length_remove {A : Type} (xs : list A) (n : nat) :
  List.length (firstn n xs ++ skipn (S n) xs)
  = if Nat.ltb n (List.length xs) then pred (List.length xs)
    else List.length xs.
Proof.
  rewrite length_app, length_firstn, length_skipn.
  destruct (Nat.ltb_spec n (List.length xs)); lia.
Qed.

End ArraysFacts.

(** ** Sums of rationals *)

Module QSums.
Local Open Scope Q_scope.

(** The sum of a list of rationals. *)
Definition qsum (xs : list Q) : Q := fold_right Qplus 0 xs.

Lemma qsum_app (xs ys : list Q) : qsum (xs ++ ys) == qsum xs + qsum ys.
Proof.
  induction xs as [|x xs IH]; simpl.
  - ring.
  - rewrite IH. ring.
Qed.

(** A running sum is its start plus the sum of what was added. *)
Lemma fold_left_qsum {A : Type} (f : A -> Q) (xs : list A) (a : Q) :
  fold_left (fun sum x => sum + f x) xs a == a + qsum (map f xs).
Proof.
  revert a. induction xs as [|x xs IH]; intros a; simpl.
  - ring.
  - rewrite IH. ring.
Qed.

Lemma qsum_ext {A : Type} (f g : A -> Q) (xs : list A) :
  Forall (fun x => f x == g x) xs -> qsum (map f xs) == qsum (map g xs).
Proof.
  induction 1 as [|x xs Hx _ IH]; simpl.
  - reflexivity.
  - rewrite Hx, IH. reflexivity.
Qed.

Lemma qsum_plus {A : Type} (f g : A -> Q) (xs : list A) :
  qsum (map (fun x => f x + g x) xs) == qsum (map f xs) + qsum (map g xs).
Proof.
  induction xs as [|x xs IH]; simpl.
  - ring.
  - rewrite IH. ring.
Qed.

End QSums.

(** ** The New Invoice form *)

Module InvoiceFormFacts.
Import Tax.
Import Invoices.
Import InvoiceForm.
Import QSums.
Local Open Scope Q_scope.

(** The two running sums of [calculateInvoiceTotal]. *)
Lemma fold_line_totals (taxCodes : list TaxCode) (lines : list line)
  (a b : Q) :
  let sums :=
    fold_left
      (fun (acc : Q * Q) l =>
         let r := calculateLineTotal taxCodes l in
         (fst acc + lineTotal r, snd acc + vatAmount r))
      lines (a, b) in
  fst sums
  == a + qsum (map (fun l => lineTotal (calculateLineTotal taxCodes l)) lines)
  /\ snd sums
     == b + qsum (map (fun l => vatAmount (calculateLineTotal taxCodes l))
                    lines).
Proof.
  cbv zeta. revert a b. induction lines as [|l ls IH]; intros a b.
  - simpl. split; ring.
  - cbn [fold_left map qsum fold_right fst snd].
    destruct (IH (a + lineTotal (calculateLineTotal taxCodes l))
                (b + vatAmount (calculateLineTotal taxCodes l))) as [H1 H2].
    cbn [fst snd] in H1, H2. rewrite H1, H2.
    fold (qsum (map (fun l => lineTotal (calculateLineTotal taxCodes l)) ls)).
    fold (qsum (map (fun l => vatAmount (calculateLineTotal taxCodes l)) ls)).
    split; ring.
Qed.

(** The header that [createInvoice] writes agrees with the lines it
    writes: its subtotal is the sum of their [line_total], its VAT amount
    the sum of their [vat_amount], and its total the sum of both, before
    the store rounds any of them. *)
Theorem invoice_header_is_the_sum_of_its_lines (taxCodes : list TaxCode)
  (lines : list line) :
  let header := calculateInvoiceTotal taxCodes lines in
  let data := linesData taxCodes lines in
  subtotal header == qsum (map line_total data) /\
  vatTotal header == qsum (map vat_amount data) /\
  total header == qsum (map (fun d => line_total d + vat_amount d) data).
Proof.
  cbv zeta. unfold calculateInvoiceTotal, linesData.
  cbn [subtotal vatTotal total].
  destruct (fold_line_totals taxCodes lines 0 0) as [H1 H2].
  cbv zeta in H1, H2. rewrite qsum_plus, !map_map.
  cbn [line_total vat_amount]. rewrite H1, H2.
  repeat split; ring.
Qed.

(** Adding a line to the form changes none of the three totals shown:
    the new line has a quantity of 1 at a price of 0. *)
Theorem addLine_keeps_the_totals (taxCodes : list TaxCode)
  (lines : list line) :
  let before := calculateInvoiceTotal taxCodes lines in
  let after := calculateInvoiceTotal taxCodes (addLine lines) in
  subtotal after == subtotal before /\
  vatTotal after == vatTotal before /\
  total after == total before.
Proof.
  cbv zeta. unfold calculateInvoiceTotal, addLine.
  cbn [subtotal vatTotal total].
  destruct (fold_line_totals taxCodes lines 0 0) as [H1 H2].
  destruct (fold_line_totals taxCodes (lines ++ [blank_line]) 0 0)
    as [H3 H4].
  cbv zeta in H1, H2, H3, H4. rewrite H1, H2, H3, H4.
  rewrite !map_app, !qsum_app.
  assert (Hv : vatAmount (calculateLineTotal taxCodes blank_line) == 0).
  { unfold calculateLineTotal, blank_line. simpl.
    destruct (find _ taxCodes); [field|reflexivity]. }
  cbn [map qsum fold_right]. rewrite Hv.
  unfold calculateLineTotal, blank_line. cbn [lineTotal quantity unit_price].
  repeat split; ring.
Qed.

(** [removeLine] takes out exactly the line at [index], keeping the others
    in order, when the form has more than one line and the index is one
    of a line; it leaves the form alone when there is a single line or
    the index is past the end. *)
Theorem removeLine_removes_one_line (index : nat) (lines : list line) :
  ((1 < List.length lines)%nat ->
   removeLine index lines = firstn index lines ++ skipn (S index) lines) /\
  ((1 < List.length lines)%nat -> (index < List.length lines)%nat ->
   S (List.length (removeLine index lines)) = List.length lines) /\
  ((List.length lines <= 1)%nat \/ (List.length lines <= index)%nat ->
   removeLine index lines = lines).
Proof.
  unfold removeLine. rewrite ArraysFacts.filteri_remove.
  split; [|split].
  - intros H. apply Nat.ltb_lt in H. rewrite H. reflexivity.
  - intros H Hi. pose proof (ArraysFacts.length_remove lines index) as Hl.
    apply Nat.ltb_lt in H. rewrite H.
    apply Nat.ltb_lt in Hi. rewrite Hi in Hl. apply Nat.ltb_lt in Hi. lia.
  - intros [H|H].
    + destruct (Nat.ltb_spec 1 (List.length lines)); [lia|reflexivity].
    + destruct (Nat.ltb 1 (List.length lines)); [|reflexivity].
      rewrite firstn_all2 by exact H. rewrite skipn_all2 by lia.
      apply app_nil_r.
Qed.

(** Three lines: removing the middle one, and removing from a form of
    one line. *)
Lemma removeLine_removes_one_line_witness :
  let a := mk_line "a" 1 10 "" in
  let b := mk_line "b" 2 20 "" in
  let c := mk_line "c" 3 30 "" in
  removeLine 1 [a; b; c] = [a; c] /\ removeLine 0 [a] = [a].
Proof.
  cbv zeta. split.
  - exact (proj1 (removeLine_removes_one_line 1
                    [mk_line "a" 1 10 ""; mk_line "b" 2 20 "";
                     mk_line "c" 3 30 ""])
             (le_n_S _ _ (le_S _ _ (le_n 1)))).
  - exact (proj2 (proj2 (removeLine_removes_one_line 0 [mk_line "a" 1 10 ""]))
             (or_introl (le_n 1))).
Defined.

(** [updateLine] keeps the number of lines, sets the field on the line at
    [index] and leaves every other line as it was. *)
Theorem updateLine_changes_one_line (index : nat) (fv : field_value)
  (lines : list line) :
  List.length (updateLine index fv lines) = List.length lines /\
  nth_error (updateLine index fv lines) index
  = option_map (fun l => with_field l fv) (nth_error lines index) /\
  (forall j, j <> index ->
     nth_error (updateLine index fv lines) j = nth_error lines j).
Proof.
  unfold updateLine, Arrays.mapi. split; [|split].
  - apply ArraysFacts.mapi_from_length.
  - rewrite ArraysFacts.mapi_from_nth. cbn [Nat.add].
    rewrite Nat.eqb_refl. reflexivity.
  - intros j Hj. rewrite ArraysFacts.mapi_from_nth. cbn [Nat.add].
    destruct (Nat.eqb_spec j index); [contradiction|].
    destruct (nth_error lines j); reflexivity.
Qed.

Lemma act_keeps_a_line (lines : list line) (a : action) :
  (1 <= List.length lines)%nat -> (1 <= List.length (act lines a))%nat.
Proof.
  intros H. destruct a as [|index fv|index]; cbn [act].
  - unfold addLine. rewrite length_app. simpl. lia.
  - unfold updateLine, Arrays.mapi.
    rewrite ArraysFacts.mapi_from_length. exact H.
  - unfold removeLine. destruct (Nat.ltb_spec 1 (List.length lines));
      [|exact H].
    rewrite ArraysFacts.filteri_remove, ArraysFacts.length_remove.
    destruct (Nat.ltb index (List.length lines)); lia.
Qed.

(** However the user adds, edits and removes lines, a form that has a
    line keeps at least one: an invoice is never created without lines. *)
Theorem invoice_form_keeps_a_line (actions : list action)
  (lines : list line) :
  (1 <= List.length lines)%nat ->
  (1 <= List.length (after actions lines))%nat.
Proof.
  unfold after. revert lines.
  induction actions as [|a rest IH]; intros lines H; simpl; [exact H|].
  apply IH, act_keeps_a_line, H.
Qed.

(** From the initial form: add a line, then remove both lines. *)
Lemma invoice_form_keeps_a_line_witness :
  (1 <= List.length
          (after [AddLine; RemoveLine 0; RemoveLine 0] [blank_line]))%nat.
Proof.
  exact (invoice_form_keeps_a_line [AddLine; RemoveLine 0; RemoveLine 0]
           [blank_line] (le_n 1)).
Defined.

End InvoiceFormFacts.

(** ** The New Bill form *)

Module BillFormFacts.
Import Tax.
Import Bills.
Import BillForm.
Import QSums.
Local Open Scope Q_scope.

(** The two stored fields of a line are what [calculateLineTotal] gives
    for its quantity, unit price and tax code. *)
Definition up_to_date (taxCodes : list TaxCode) (l : BillLine) : Prop :=
  line_total l == r_line_total (calculateLineTotal taxCodes l)
  /\ vat_amount l == r_vat_amount (calculateLineTotal taxCodes l).

Lemma blank_line_up_to_date (taxCodes : list TaxCode) :
  up_to_date taxCodes blank_line.
Proof.
  unfold up_to_date, calculateLineTotal, blank_line. simpl. split; ring.
Qed.

Lemma Forall_first {A : Type} (P : A -> Prop) (xs : list A) (n : nat) :
  Forall P xs -> Forall P (firstn n xs).
Proof.
  intros H. revert n. induction H as [|x xs Hx _ IH]; intros n.
  - rewrite firstn_nil. constructor.
  - destruct n; simpl; constructor; auto.
Qed.

Lemma Forall_skip {A : Type} (P : A -> Prop) (xs : list A) (n : nat) :
  Forall P xs -> Forall P (skipn n xs).
Proof.
  intros H. revert n. induction H as [|x xs Hx Hxs IH]; intros n.
  - rewrite skipn_nil. constructor.
  - destruct n; simpl; [constructor; assumption|apply IH].
Qed.

Lemma Forall_remove {A : Type} (P : A -> Prop) (xs : list A) (n : nat) :
  Forall P xs -> Forall P (firstn n xs ++ skipn (S n) xs).
Proof.
  intros H. apply Forall_app. split.
  - apply Forall_first, H.
  - apply Forall_skip, H.
Qed.

(** The line totals of the form stay current: if every line carries the
    totals of its own quantity, price and tax code, it still does after
    any edit of a field, after adding a line and after removing one; an
    edit keeps the number of lines. *)
Theorem bill_line_totals_stay_current (taxCodes : list TaxCode)
  (billLines : list BillLine) :
  Forall (up_to_date taxCodes) billLines ->
  (forall index fv updated,
      updateBillLine taxCodes index fv billLines = Some updated ->
      Forall (up_to_date taxCodes) updated
      /\ List.length updated = List.length billLines) /\
  Forall (up_to_date taxCodes) (addBillLine billLines) /\
  (forall index, Forall (up_to_date taxCodes) (removeBillLine index billLines)).
Proof.
  intros Hall. split; [|split].
  - intros index fv updated. unfold updateBillLine.
    destruct (nth_error billLines index) as [old|] eqn:E; [|discriminate].
    intros H. injection H as <-. split.
    + apply Forall_app. split; [apply Forall_first, Hall|].
      apply Forall_cons; [|exact (Forall_skip _ _ (S index) Hall)].
      assert (Hold : up_to_date taxCodes old).
      { rewrite Forall_forall in Hall. apply Hall.
        apply nth_error_In with index. exact E. }
      destruct fv; cbn [recalculates with_field].
      * exact Hold.
      * split; reflexivity.
      * split; reflexivity.
      * split; reflexivity.
    + assert (Hlt : (index < List.length billLines)%nat).
      { apply nth_error_Some. rewrite E. discriminate. }
      rewrite length_app, length_firstn, length_cons.
      change (match billLines with [] => [] | _ :: l => skipn index l end)
        with (skipn (S index) billLines).
      rewrite length_skipn. lia.
  - unfold addBillLine. apply Forall_app. split; [exact Hall|].
    constructor; [apply blank_line_up_to_date|constructor].
  - intros index. unfold removeBillLine.
    destruct (Nat.ltb 1 (List.length billLines)); [|exact Hall].
    rewrite ArraysFacts.filteri_remove. apply Forall_remove, Hall.
Qed.

(** The initial form with a line added. *)
Lemma bill_line_totals_stay_current_witness :
  Forall (up_to_date [mk_TaxCode "std" "Standard Rate VAT" 20])
    (addBillLine [blank_line]).
Proof.
  exact (proj1 (proj2 (bill_line_totals_stay_current
                         [mk_TaxCode "std" "Standard Rate VAT" 20]
                         [blank_line]
                         (Forall_cons _
                            (blank_line_up_to_date
                               [mk_TaxCode "std" "Standard Rate VAT" 20])
                            (Forall_nil _))))).
Defined.

(** When the line totals are current, the header that [handleSubmit]
    writes agrees with the lines: its total is the sum of their
    [line_total] (which include VAT), its VAT amount the sum of their
    [vat_amount], and its subtotal the difference. *)
Theorem bill_header_is_the_sum_of_its_lines (taxCodes : list TaxCode)
  (billLines : list BillLine) :
  Forall (up_to_date taxCodes) billLines ->
  let header := calculateTotals billLines in
  total header == qsum (map line_total billLines) /\
  vatAmount header == qsum (map vat_amount billLines) /\
  subtotal header
  == qsum (map line_total billLines) - qsum (map vat_amount billLines).
Proof.
  intros Hall. cbv zeta. unfold calculateTotals.
  cbn [total vatAmount subtotal].
  rewrite !fold_left_qsum.
  assert (Hgross : qsum (map line_total billLines)
                   == qsum (map (fun l => quantity l * unit_price l) billLines)
                      + qsum (map vat_amount billLines)).
  { rewrite <- qsum_plus. apply qsum_ext.
    apply Forall_impl with (P := up_to_date taxCodes); [|exact Hall].
    intros l [Ht Hv]. rewrite Ht, Hv.
    unfold calculateLineTotal. cbn [r_line_total r_vat_amount].
    reflexivity. }
  rewrite Hgross. repeat split; ring.
Qed.

(** A form of one line: 2 units at 50.00 with the standard rate. *)
Lemma bill_header_is_the_sum_of_its_lines_witness :
  total (calculateTotals
           [mk_BillLine "Chairs" 2 50 (Some "std"%string) 120 20])
  == 120.
Proof.
  refine (proj1 (bill_header_is_the_sum_of_its_lines
                   [mk_TaxCode "std" "Standard Rate VAT" 20]
                   [mk_BillLine "Chairs" 2 50 (Some "std"%string) 120 20]
                   _)).
  repeat constructor.
Defined.

(** Removing a line never empties the form, so after any removal from a
    form that has a line, the bill is refused exactly when no supplier is
    selected, and otherwise sent with the totals of the remaining
    lines. *)
Theorem bill_is_refused_only_without_supplier (supplier_id : string)
  (index : nat) (billLines : list BillLine) :
  (1 <= List.length billLines)%nat ->
  let remaining := removeBillLine index billLines in
  (1 <= List.length remaining)%nat /\
  (handleSubmit supplier_id remaining = Refused <-> supplier_id = ""%string) /\
  (supplier_id <> ""%string ->
   handleSubmit supplier_id remaining
   = Sent (calculateTotals remaining) remaining).
Proof.
  intros H. cbv zeta.
  assert (Hlen : (1 <= List.length (removeBillLine index billLines))%nat).
  { unfold removeBillLine.
    destruct (Nat.ltb_spec 1 (List.length billLines)); [|exact H].
    rewrite ArraysFacts.filteri_remove, ArraysFacts.length_remove.
    destruct (Nat.ltb index (List.length billLines)); lia. }
  split; [exact Hlen|]. unfold handleSubmit.
  destruct (Nat.eqb_spec (List.length (removeBillLine index billLines)) 0)
    as [E|E]; [lia|].
  rewrite orb_false_r.
  destruct (String.eqb_spec supplier_id "") as [Es|Es].
  - split; [tauto|contradiction].
  - split; [|reflexivity]. split; [discriminate|contradiction].
Qed.

(** The single line of the initial form cannot be removed. *)
Lemma bill_is_refused_only_without_supplier_witness :
  handleSubmit "s1" (removeBillLine 0 [blank_line])
  = Sent (calculateTotals [blank_line]) [blank_line].
Proof.
  refine (proj2 (proj2 (bill_is_refused_only_without_supplier "s1" 0
                          [blank_line] (le_n 1))) _).
  discriminate.
Defined.

End BillFormFacts.

(** * Properties of the return computed for submission *)

Module VatMtdFacts.
Import Journal.
Import VatMtd.

(** On whole pence the rounding changes nothing. *)
Lemma round_pence_id (pence : Z) : round_pence pence = pence.
Proof.
  unfold round_pence, Math_round.
  assert (H : (inject_Z pence / 100 * 100 + (1 # 2)
               == inject_Z pence + (1 # 2))%Q) by field.
  rewrite (Qfloor_comp _ _ H). unfold Qfloor, Qplus, inject_Z.
  cbn [Qnum Qden]. change (Z.pos (1 * 2)) with 2.
  symmetry. apply (Z.div_unique_pos _ _ _ 1); lia.
Qed.

Definition vat_on_sales (l : journal_line) : bool :=
  Text.includes (lowerName l) "vat" && Text.includes (lowerName l) "sales".

Definition vat_on_purchases (l : journal_line) : bool :=
  Text.includes (lowerName l) "vat" && Text.includes (lowerName l) "purchase".

Definition credit_of (l : journal_line) : Z := Money.Number (credit_amount l).
Definition debit_of (l : journal_line) : Z := Money.Number (debit_amount l).

Lemma mtd_fold_step_sums (lines : list journal_line) (s : sums) :
  let s' := fold_left step lines s in
  s_vatDueSales s'
  = s_vatDueSales s + Money.reduce_sum credit_of (filter vat_on_sales lines) /\
  s_vatReclaimed s'
  = s_vatReclaimed s
    + Money.reduce_sum debit_of (filter vat_on_purchases lines) /\
  s_salesExVat s'
  = s_salesExVat s
    + Money.reduce_sum credit_of
        (filter (fun l => type_is (accountType l) "Revenue") lines) /\
  s_purchasesExVat s'
  = s_purchasesExVat s
    + Money.reduce_sum debit_of
        (filter (fun l => type_is (accountType l) "Expense") lines).
Proof.
  cbv zeta. revert s. induction lines as [|l ls IH]; intros s.
  - simpl. rewrite !reduce_sum_nil. lia.
  - cbn [fold_left filter]. destruct (IH (step s l)) as (H1 & H2 & H3 & H4).
    rewrite H1, H2, H3, H4. unfold step.
    cbn [s_vatDueSales s_vatReclaimed s_salesExVat s_purchasesExVat].
    fold (vat_on_sales l). fold (vat_on_purchases l).
    destruct (vat_on_sales l), (vat_on_purchases l),
      (type_is (accountType l) "Revenue"), (type_is (accountType l) "Expense");
      rewrite ?reduce_sum_cons; unfold credit_of, debit_of; lia.
Qed.

(** In the return computed for submission, the VAT due on sales is the
    sum of the credits, over the lines of the period, of the accounts
    whose name contains "vat" and "sales"; the VAT reclaimed is the sum of
    the debits of those whose name contains "vat" and "purchase"; total
    VAT due is the VAT due on sales, net VAT due is total VAT due less the
    VAT reclaimed (negative when more is reclaimed), and the boxes for
    acquisitions and goods supplied are zero. *)
Theorem submitted_return_boxes (obligation : Obligation)
  (table : list journal_line) :
  let r := calculateVATReturn obligation table in
  let lines := select_journal_lines obligation table in
  vatDueSales r = Money.reduce_sum credit_of (filter vat_on_sales lines) /\
  vatReclaimedCurrPeriod r
  = Money.reduce_sum debit_of (filter vat_on_purchases lines) /\
  totalVatDue r = vatDueSales r /\
  netVatDue r = totalVatDue r - vatReclaimedCurrPeriod r /\
  vatDueAcquisitions r = 0 /\
  totalValueGoodsSuppliedExVAT r = 0 /\
  totalAcquisitionsExVAT r = 0.
Proof.
  cbv zeta. unfold calculateVATReturn.
  cbn [vatDueSales vatReclaimedCurrPeriod totalVatDue netVatDue
         vatDueAcquisitions totalValueGoodsSuppliedExVAT
         totalAcquisitionsExVAT].
  rewrite !round_pence_id.
  destruct (mtd_fold_step_sums (select_journal_lines obligation table)
              (mk_sums 0 0 0 0)) as (H1 & H2 & _).
  cbv zeta in H1, H2. rewrite H1, H2. simpl. repeat split.
Qed.

Definition checked (l : journal_line) : Prop :=
  forall a, account_of l = Some a -> account_type_check a = true.

Lemma checked_is_not_revenue (l : journal_line) (t : string) :
  checked l -> t = "Revenue"%string \/ t = "Expense"%string ->
  type_is (accountType l) t = false.
Proof.
  unfold checked, accountType, type_is, account_type_check.
  destruct (account_of l) as [a|]; [|reflexivity].
  intros H Ht. specialize (H a eq_refl). cbn [option_map existsb] in *.
  rewrite !orb_true_iff, !String.eqb_eq in H.
  apply String.eqb_neq. intros E.
  destruct Ht as [Ht|Ht]; subst t; rewrite E in H;
    destruct H as [H|[H|[H|[H|[H|H]]]]]; discriminate H.
Qed.

(** The value of sales and the value of purchases of the return computed
    for submission are zero whatever is in the books: they add up the
    accounts of type "Revenue" and "Expense", and the chart of accounts
    only admits the types 'asset', 'liability', 'equity', 'income' and
    'expense'. *)
Theorem submitted_return_has_no_sales_or_purchases (obligation : Obligation)
  (table : list journal_line) :
  Forall checked table ->
  totalValueSalesExVAT (calculateVATReturn obligation table) = 0 /\
  totalValuePurchasesExVAT (calculateVATReturn obligation table) = 0.
Proof.
  intros Hall. unfold calculateVATReturn.
  cbn [totalValueSalesExVAT totalValuePurchasesExVAT].
  rewrite !round_pence_id.
  destruct (mtd_fold_step_sums (select_journal_lines obligation table)
              (mk_sums 0 0 0 0)) as (_ & _ & H3 & H4).
  cbv zeta in H3, H4. rewrite H3, H4.
  assert (Hsel : Forall checked (select_journal_lines obligation table)).
  { unfold select_journal_lines. rewrite Forall_forall in *.
    intros l Hl. apply filter_In in Hl. apply Hall, Hl. }
  rewrite !TrialBalanceRows.filter_absent.
  - split; reflexivity.
  - rewrite Forall_forall in Hsel. intros l Hl.
    apply checked_is_not_revenue; [apply Hsel, Hl|auto].
  - rewrite Forall_forall in Hsel. intros l Hl.
    apply checked_is_not_revenue; [apply Hsel, Hl|auto].
Qed.

(** A sale of 100.00 credited to the income account Sales Revenue. *)
Lemma submitted_return_has_no_sales_or_purchases_witness :
  totalValueSalesExVAT
    (calculateVATReturn
       (mk_Obligation "25A1" (Dates.mk_date 2025 1 1) (Dates.mk_date 2025 3 31))
       [mk_journal_line (Some (mk_account "Sales Revenue" "income"))
          (Dates.mk_date 2025 2 1) (Some 0) (Some 10000)])
  = 0.
Proof.
  refine (proj1 (submitted_return_has_no_sales_or_purchases
                   (mk_Obligation "25A1" (Dates.mk_date 2025 1 1)
                      (Dates.mk_date 2025 3 31))
                   [mk_journal_line (Some (mk_account "Sales Revenue" "income"))
                      (Dates.mk_date 2025 2 1) (Some 0) (Some 10000)]
                   _)).
  constructor; [|constructor].
  intros a H. injection H as <-. reflexivity.
Defined.

(** An account that none of the four sums picks up. *)
Definition unseen (a : account) : bool :=
  account_type_check a
  && negb (Text.includes (Text.toLowerCase (account_name a)) "vat"
           && Text.includes (Text.toLowerCase (account_name a)) "sales")
  && negb (Text.includes (Text.toLowerCase (account_name a)) "vat"
           && Text.includes (Text.toLowerCase (account_name a)) "purchase").

Lemma seeded_accounts_unseen :
  forallb unseen ChartOfAccounts.seeded = true.
Proof. vm_compute. reflexivity. Qed.

Lemma unseen_line (l : journal_line) (a : account) :
  account_of l = Some a -> unseen a = true ->
  vat_on_sales l = false /\ vat_on_purchases l = false /\ checked l.
Proof.
  intros Ha Hu. unfold unseen in Hu.
  rewrite !andb_true_iff, !negb_true_iff in Hu.
  destruct Hu as [[Hc Hs] Hp].
  unfold vat_on_sales, vat_on_purchases, lowerName, checked.
  rewrite Ha. repeat split; try assumption.
  intros a' H'. injection H' as <-. exact Hc.
Qed.

(** With the chart of accounts that the migration installs, the return
    computed for submission is nil, whatever has been posted: no account
    of that chart has a name with "vat" and "sales" or with "vat" and
    "purchase" in it, nor the type "Revenue" or "Expense". *)
Theorem submitted_return_is_nil_on_the_seeded_chart (obligation : Obligation)
  (table : list journal_line) :
  Forall (fun l => exists a, account_of l = Some a
                             /\ In a ChartOfAccounts.seeded) table ->
  calculateVATReturn obligation table = mk_VATReturn 0 0 0 0 0 0 0 0 0.
Proof.
  intros Hall.
  assert (Hsel : forall l, In l (select_journal_lines obligation table) ->
            vat_on_sales l = false /\ vat_on_purchases l = false
            /\ checked l).
  { intros l Hl. unfold select_journal_lines in Hl. apply filter_In in Hl.
    rewrite Forall_forall in Hall.
    destruct (Hall l (proj1 Hl)) as (a & Ha & Hin).
    apply (unseen_line l a Ha).
    pose proof seeded_accounts_unseen as Hs.
    rewrite forallb_forall in Hs. apply Hs, Hin. }
  unfold calculateVATReturn.
  destruct (mtd_fold_step_sums (select_journal_lines obligation table)
              (mk_sums 0 0 0 0)) as (H1 & H2 & H3 & H4).
  cbv zeta in H1, H2, H3, H4. rewrite H1, H2, H3, H4.
  rewrite !TrialBalanceRows.filter_absent.
  - reflexivity.
  - intros l Hl. apply checked_is_not_revenue; [apply Hsel, Hl|auto].
  - intros l Hl. apply checked_is_not_revenue; [apply Hsel, Hl|auto].
  - intros l Hl. apply Hsel, Hl.
  - intros l Hl. apply Hsel, Hl.
Qed.

(** A sale of 120.00 posted to the seeded accounts: bank, revenue and VAT
    payable. *)
Lemma submitted_return_is_nil_on_the_seeded_chart_witness :
  let d := Dates.mk_date 2025 2 1 in
  calculateVATReturn
    (mk_Obligation "25A1" (Dates.mk_date 2025 1 1) (Dates.mk_date 2025 3 31))
    [mk_journal_line (Some (mk_account "Current Account" "asset")) d
       (Some 12000) (Some 0);
     mk_journal_line (Some (mk_account "Sales Revenue" "income")) d
       (Some 0) (Some 10000);
     mk_journal_line (Some (mk_account "VAT Payable" "liability")) d
       (Some 0) (Some 2000)]
  = mk_VATReturn 0 0 0 0 0 0 0 0 0.
Proof.
  cbv zeta.
  refine (submitted_return_is_nil_on_the_seeded_chart
            (mk_Obligation "25A1" (Dates.mk_date 2025 1 1)
               (Dates.mk_date 2025 3 31))
            [mk_journal_line (Some (mk_account "Current Account" "asset"))
               (Dates.mk_date 2025 2 1) (Some 12000) (Some 0);
             mk_journal_line (Some (mk_account "Sales Revenue" "income"))
               (Dates.mk_date 2025 2 1) (Some 0) (Some 10000);
             mk_journal_line (Some (mk_account "VAT Payable" "liability"))
               (Dates.mk_date 2025 2 1) (Some 0) (Some 2000)]
            _).
  repeat constructor.
  - exists (mk_account "Current Account" "asset"). simpl. auto.
  - exists (mk_account "Sales Revenue" "income"). simpl. auto 12.
  - exists (mk_account "VAT Payable" "liability"). simpl. auto 8.
Defined.

End VatMtdFacts.

(** * Properties of the bank statement reader *)

Module CsvFacts.
Import Csv.

Fixpoint has_char (c : ascii) (s : string) : bool :=
  match s with
  | EmptyString => false
  | String d rest => Ascii.eqb d c || has_char c rest
  end.

Lemma split_not_nil (sep : ascii) (s : string) : split sep s <> [].
Proof.
  destruct s as [|c rest]; simpl; [discriminate|].
  destruct (Ascii.eqb c sep); [discriminate|].
  destruct (split sep rest); discriminate.
Qed.

(** A text without the separator is one piece. *)
Lemma split_without_separator (sep : ascii) (s : string) :
  has_char sep s = false -> split sep s = [s].
Proof.
  induction s as [|c rest IH]; simpl; intros H; [reflexivity|].
  apply orb_false_iff in H. destruct H as [Hc Hrest].
  rewrite Hc, (IH Hrest). reflexivity.
Qed.

Lemma remove_char_removes (c : ascii) (s : string) :
  has_char c (remove_char c s) = false.
Proof.
  induction s as [|d rest IH]; simpl; [reflexivity|].
  destruct (Ascii.eqb d c) eqn:E; [exact IH|].
  simpl. rewrite E, IH. reflexivity.
Qed.

Section ParseCSVFacts.

Variable parseFloat : string -> option Q.
Variable iso_date : string -> option string.

Lemma keep_parsed_length (headers lines : list string) :
  (List.length (keep_parsed parseFloat iso_date headers lines)
   <= List.length lines)%nat.
Proof.
  induction lines as [|l ls IH]; simpl; [apply Nat.le_refl|].
  destruct (parse_line parseFloat iso_date headers l); simpl; lia.
Qed.

Lemma keep_parsed_in (headers lines : list string) (t : transaction) :
  In t (keep_parsed parseFloat iso_date headers lines) ->
  exists line, In line lines
               /\ parse_line parseFloat iso_date headers line = Some t.
Proof.
  induction lines as [|l ls IH]; simpl; [contradiction|].
  destruct (parse_line parseFloat iso_date headers l) as [t'|] eqn:E.
  - intros [H|H].
    + subst t'. exists l. auto.
    + destruct (IH H) as (line & Hl & Hp). exists line. auto.
  - intros H. destruct (IH H) as (line & Hl & Hp). exists line. auto.
Qed.

Lemma keep_parsed_short_header (headers lines : list string) :
  (List.length headers < 3)%nat ->
  keep_parsed parseFloat iso_date headers lines = [].
Proof.
  intros H. induction lines as [|l ls IH]; simpl; [reflexivity|].
  unfold parse_line. destruct (Nat.leb_spec 3 (List.length headers)); [lia|].
  destruct (3 <=? _)%nat; exact IH.
Qed.

(** What a line that is kept gives. *)
Lemma parse_line_some (headers : list string) (line : string)
  (t : transaction) :
  parse_line parseFloat iso_date headers line = Some t ->
  let values := map clean (split comma line) in
  (3 <= List.length values)%nat
  /\ description t = nth 1 values EmptyString
  /\ description t <> EmptyString
  /\ parseFloat (nth 2 values EmptyString) = Some (amount t)
  /\ iso_date (nth 0 values EmptyString) = Some (date t)
  /\ reference t <> Some EmptyString.
Proof.
  cbv zeta. unfold parse_line.
  generalize (nth_error (map clean (split comma line)) 3). intros r3.
  destruct (Nat.leb_spec 3 (List.length (map clean (split comma line))));
    [|discriminate].
  destruct (3 <=? List.length headers)%nat; [|discriminate].
  destruct (String.eqb_spec
              (nth 0 (map clean (split comma line)) EmptyString) EmptyString);
    [discriminate|].
  destruct (String.eqb_spec
              (nth 1 (map clean (split comma line)) EmptyString) EmptyString);
    [discriminate|]. cbn [orb].
  destruct (parseFloat _) as [a|]; [|discriminate].
  destruct (iso_date _) as [d|]; [|discriminate].
  intros Heq. injection Heq as <-. cbn [description amount date reference].
  repeat split; try assumption.
  destruct r3 as [r|]; [|intros Hr; discriminate Hr].
  destruct (String.eqb_spec r EmptyString); intros Hr;
    [discriminate Hr|congruence].
Qed.

End ParseCSVFacts.

(** A statement yields nothing when, once trimmed, it has a single line
    (the header alone, or nothing at all), and also when its header has
    fewer than three columns, whatever the lines below it hold. *)
Theorem parseCSV_needs_a_header_and_a_line
  (parseFloat : string -> option Q) (iso_date : string -> option string)
  (csvText : string) :
  (has_char newline (trim csvText) = false ->
   parseCSV parseFloat iso_date csvText = []) /\
  ((List.length
      (split comma (hd EmptyString (split newline (trim csvText)))) < 3)%nat ->
   parseCSV parseFloat iso_date csvText = []).
Proof.
  unfold parseCSV. split.
  - intros H. rewrite (split_without_separator _ _ H). reflexivity.
  - intros H. destruct (List.length (split newline (trim csvText)) <? 2)%nat;
      [reflexivity|].
    apply keep_parsed_short_header. rewrite length_map. exact H.
Qed.

(** A statement yields at most one transaction per line below the
    header, in the order of the lines.  Every transaction comes from a
    line of at least three values; its description is the second value,
    not empty and free of double quotes, its amount is what [parseFloat]
    makes of the third, and its reference is never the empty text. *)
Theorem parseCSV_transactions_are_well_formed
  (parseFloat : string -> option Q) (iso_date : string -> option string)
  (csvText : string) :
  let lines := split newline (trim csvText) in
  (List.length (parseCSV parseFloat iso_date csvText)
   <= List.length lines - 1)%nat /\
  (forall t, In t (parseCSV parseFloat iso_date csvText) ->
     exists line,
       In line (tl lines)
       /\ (3 <= List.length (split comma line))%nat
       /\ description t = clean (nth 1 (split comma line) EmptyString)
       /\ description t <> EmptyString
       /\ has_char quote (description t) = false
       /\ parseFloat (clean (nth 2 (split comma line) EmptyString))
          = Some (amount t)
       /\ reference t <> Some EmptyString).
Proof.
  cbv zeta. unfold parseCSV.
  destruct (Nat.ltb_spec (List.length (split newline (trim csvText))) 2).
  - split; [simpl; lia|]. intros t [].
  - split.
    + pose proof (keep_parsed_length parseFloat iso_date
                    (map clean
                       (split comma
                          (hd EmptyString (split newline (trim csvText)))))
                    (tl (split newline (trim csvText)))) as Hl.
      destruct (split newline (trim csvText)); simpl in *; lia.
    + intros t Ht. apply keep_parsed_in in Ht.
      destruct Ht as (line & Hline & Hp). exists line.
      apply parse_line_some in Hp. cbv zeta in Hp.
      destruct Hp as (Hlen & Hd & Hne & Ha & _ & Hr).
      rewrite length_map in Hlen.
      assert (Hnth : forall k, (k < 3)%nat ->
                nth k (map clean (split comma line)) EmptyString
                = clean (nth k (split comma line) EmptyString)).
      { intros k Hk.
        rewrite (nth_indep _ EmptyString (clean EmptyString))
          by (rewrite length_map; lia).
        apply map_nth. }
      rewrite (Hnth 1%nat) in Hd by lia. rewrite (Hnth 2%nat) in Ha by lia.
      repeat split; try assumption.
      rewrite Hd. apply remove_char_removes.
Qed.

(** A statement of one transaction, read with a [parseFloat] that knows
    the number 120.00 only and dates taken as they are. *)
Example parseCSV_of_one_payment :
  let parseFloat s :=
    if String.eqb s "120.00" then Some (120 # 1) else None in
  parseCSV parseFloat (fun d => Some d)
    ("Date,Description,Amount"
     ++ String newline " 2025-04-02 , Payment INV-1001 ,120.00,REF9"
     ++ String newline "2025-04-03,Bank fee,n/a"
     ++ String newline "")%string
  = [mk_transaction "2025-04-02" "Payment INV-1001" (120 # 1)
       (Some "REF9"%string)].
Proof. vm_compute. reflexivity. Qed.

(** The header alone. *)
Lemma parseCSV_needs_a_header_and_a_line_witness :
  parseCSV (fun _ => None) (fun d => Some d) "Date,Description,Amount" = [].
Proof.
  exact (proj1 (parseCSV_needs_a_header_and_a_line (fun _ => None)
                  (fun d => Some d) "Date,Description,Amount")
           eq_refl).
Defined.

End CsvFacts.

(** * Properties of the Dashboard *)

Module DashboardFacts.
Import Dashboard.

Definition has_status (s : string) (inv : invoice_row) : bool :=
  String.eqb (status inv) s.

Lemma in_first {A : Type} (n : nat) (xs : list A) (x : A) :
  In x (firstn n xs) -> In x xs.
Proof.
  revert n. induction xs as [|y ys IH]; intros n.
  - rewrite firstn_nil. auto.
  - destruct n; simpl; [contradiction|]. intros [H|H]; eauto.
Qed.

Lemma unpaid_test (inv : invoice_row) :
  existsb (String.eqb (status inv)) ["sent"; "overdue"]%string
  = String.eqb (status inv) "sent" || String.eqb (status inv) "overdue".
Proof. cbn [existsb]. rewrite orb_false_r. reflexivity. Qed.

Lemma count_unpaid (invoices : list invoice_row) :
  List.length
    (filter (fun inv => existsb (String.eqb (status inv))
                          ["sent"; "overdue"]%string) invoices)
  = (List.length (filter (has_status "sent") invoices)
     + List.length (filter (has_status "overdue") invoices))%nat.
Proof.
  unfold has_status. induction invoices as [|inv rest IH]; [reflexivity|].
  cbn [filter]. rewrite (unpaid_test inv).
  destruct (String.eqb_spec (status inv) "sent") as [E|E].
  - rewrite E. cbn [orb String.eqb List.length]. simpl String.eqb.
    cbn [List.length]. rewrite IH. reflexivity.
  - destruct (String.eqb (status inv) "overdue"); cbn [orb List.length];
      rewrite IH; lia.
Qed.

Lemma filter_overdue_of_unpaid (invoices : list invoice_row) :
  filter (has_status "overdue")
    (filter (fun inv => existsb (String.eqb (status inv))
                          ["sent"; "overdue"]%string) invoices)
  = filter (has_status "overdue") invoices.
Proof.
  unfold has_status. induction invoices as [|inv rest IH]; [reflexivity|].
  cbn [filter]. rewrite (unpaid_test inv).
  destruct (String.eqb_spec (status inv) "sent") as [E|E].
  - cbn [orb filter]. rewrite E. simpl String.eqb. cbv iota. exact IH.
  - destruct (String.eqb (status inv) "overdue") eqn:Eo; cbn [orb filter].
    + rewrite Eo, IH. reflexivity.
    + exact IH.
Qed.

(** On the Dashboard the number of unpaid invoices is the number of sent
    invoices plus the number of overdue ones, the number of overdue
    invoices is at most that, at most five recent invoices are listed,
    all of them unpaid, and the cash balance is the total balance of the
    Banking page. *)
Theorem dashboard_figures (invoices : list invoice_row)
  (bills : list string) (transactions : list Banking.BankTransaction) :
  let stats := fetchDashboardData invoices bills transactions in
  unpaidInvoices stats
  = (List.length (filter (has_status "sent") invoices)
     + List.length (filter (has_status "overdue") invoices))%nat /\
  overdueInvoices stats
  = List.length (filter (has_status "overdue") invoices) /\
  (overdueInvoices stats <= unpaidInvoices stats)%nat /\
  List.length (recentInvoices stats) = Nat.min 5 (unpaidInvoices stats) /\
  (forall inv, In inv (recentInvoices stats) ->
     has_status "sent" inv = true \/ has_status "overdue" inv = true) /\
  totalCash stats = BankingData.totalBalance transactions.
Proof.
  cbv zeta. unfold fetchDashboardData, select_unpaid, select_amounts.
  cbn [unpaidInvoices overdueInvoices recentInvoices totalCash
         length_or_zero option_map sum_or_zero].
  fold (has_status "overdue").
  rewrite filter_overdue_of_unpaid, count_unpaid, length_firstn, count_unpaid.
  repeat split; try lia.
  - intros inv Hin. apply in_first in Hin. apply filter_In in Hin.
    destruct Hin as [_ H]. rewrite unpaid_test in H.
    apply orb_true_iff in H. exact H.
  - rewrite or_zero_id, reduce_sum_map. reflexivity.
Qed.

End DashboardFacts.
